(** * MaseDB client library: blocking and non-blocking API clients

    Shallow embedding of [src/client.py] ([MaseDBClient]) and
    [src/async_client.py] ([AsyncMaseDBClient]).

    The two clients are thin layers over an HTTP library ([requests] with
    urllib3 underneath, and [aiohttp]).  The libraries and the remote server
    are the environment of the embedding:

    - a request is the argument list of [session.request] (method, URL, the
      [headers] dict, the [json] keyword); the headers a library adds when it
      serialises the request are given by [wire_headers];
    - a response is the record of everything a client reads from the
      response object of its library; [Requests.read] and [Aiohttp.read] are
      the records the two libraries make of one and the same HTTP response;
    - the server is a function from the history of transmissions to the
      outcome of the latest one;
    - [response.ok] is each library's own definition, and the retry policy
      that [MaseDBClient.__init__] mounts on its session is urllib3's.

    A method of a client is a computation in [M]: it reads the environment,
    extends the trace of the world and returns a value or raises.

    Outside the embedding: the following of redirects, which both libraries
    do on their own (a response is one the library hands to the client), the
    re-sending of a request by aiohttp when a kept-alive connection turns out
    to be closed, and a [json] value that cannot be serialised (a NaN or an
    infinity, refused before anything is sent).  The statements on the number
    of transmissions are statements on the retry policy of the session; the
    statements on requests are on what the clients hand to their session. *)

From Stdlib Require Import ZArith String Ascii List Bool Lia PrimFloat.
From stdpp Require Import base option list gmap strings pretty.

Local Open Scope string_scope.
Local Open Scope list_scope.
Set Warnings "-register-all".

(** ** Python values *)

Module Py.

(** The values [json.loads] produces, which are also the payloads the methods
    accept.  Python's [None] is [JNull].  A dict is the list of its items in
    insertion order (keys are distinct, lookup takes the first match). *)
Inductive Json : Type :=
| JNull
| JBool (b : bool)
| JInt (z : Z)
| JFloat (f : float)
| JStr (s : string)
| JArr (items : list Json)
| JObj (fields : list (string * Json)).

(** The exceptions that can leave a client method.  [RequestException] is the
    root of what [requests] raises, [ClientError] stands for what [aiohttp]
    raises while sending (its [ClientError] family and a timeout), and
    [ContentTypeError] is the one [aiohttp] raises when [json()] is called on
    a response whose media type it does not take for JSON. *)
Inductive TransportError : Type :=
| ConnectError (detail : string)
| ReadError (detail : string)
| RetryError (status : Z).

(** Modelled from the spec: the class [MaseDBError] of [masedb.exceptions] is
    not among the sources.  Section 7 of the specification describes it as the
    single error kind, parameterized by a human-readable message, an optional
    machine error code and an optional structured details mapping; it is
    constructed positionally in that order, and it is neither a [ValueError]
    nor a transport exception. *)
Record MaseDBError : Type := mkMaseDBError {
  message : Json;
  code : option Json;
  details : option Json
}.

Inductive Exn : Type :=
| MaseDB (e : MaseDBError)
| TypeError
| AttributeError
| KeyError
| IndexError
| RequestException (e : TransportError)
| ClientError (e : TransportError)
| ContentTypeError (mimetype : string).

Inductive Result (A : Type) : Type :=
| Ok (a : A)
| Raise (e : Exn).
Arguments Ok {A} a.
Arguments Raise {A} e.

#[export] Instance Result_ret : MRet Result := fun A a => Ok a.
#[export] Instance Result_bind : MBind Result := fun A B f m =>
  match m with
  | Ok a => f a
  | Raise e => Raise e
  end.

(** [MaseDBError(msg)]: only the message is given. *)
Definition error_of_message (msg : string) : MaseDBError :=
  {| message := JStr msg; code := None; details := None |}.

(** [bool(v)] *)
Definition truthy (v : Json) : bool :=
  match v with
  | JNull => false
  | JBool b => b
  | JInt z => negb (z =? 0)%Z
  | JFloat f => negb (PrimFloat.eqb f 0%float)
  | JStr s => negb (String.eqb s "")
  | JArr items => match items with [] => false | _ :: _ => true end
  | JObj fields => match fields with [] => false | _ :: _ => true end
  end.

(** [a or b] *)
Definition or_ (a b : Json) : Json := if truthy a then a else b.

(** [needle in hay] on strings: the substring test. *)
Fixpoint contains (needle hay : string) : bool :=
  String.prefix needle hay ||
  match hay with
  | EmptyString => false
  | String _ rest => contains needle rest
  end.

(** [x in l] for a list literal of strings. *)
Definition in_list (x : string) (l : list string) : bool :=
  existsb (String.eqb x) l.

Fixpoint dict_lookup (k : string) (fields : list (string * Json)) : option Json :=
  match fields with
  | [] => None
  | (k', v) :: rest => if String.eqb k k' then Some v else dict_lookup k rest
  end.

Definition is_str (s : string) (v : Json) : bool :=
  match v with
  | JStr s' => String.eqb s s'
  | _ => false
  end.

(** [key in v] with a string [key]: key membership for a dict, element
    equality for a list, substring for a string, [TypeError] for a value that
    is not a container. *)
Definition py_in (key : string) (v : Json) : Result bool :=
  match v with
  | JObj fields => Ok (bool_decide (is_Some (dict_lookup key fields)))
  | JArr items => Ok (existsb (is_str key) items)
  | JStr s => Ok (contains key s)
  | JNull | JBool _ | JInt _ | JFloat _ => Raise TypeError
  end.

(** [v[key]] with a string [key]. *)
Definition getitem_str (v : Json) (key : string) : Result Json :=
  match v with
  | JObj fields =>
      match dict_lookup key fields with
      | Some x => Ok x
      | None => Raise KeyError
      end
  | _ => Raise TypeError
  end.

(** [v[0]] *)
Definition getitem_0 (v : Json) : Result Json :=
  match v with
  | JArr items =>
      match items with
      | x :: _ => Ok x
      | [] => Raise IndexError
      end
  | JStr s =>
      match s with
      | String c _ => Ok (JStr (String c EmptyString))
      | EmptyString => Raise IndexError
      end
  | JObj _ => Raise KeyError
  | JNull | JBool _ | JInt _ | JFloat _ => Raise TypeError
  end.

(** [v.get(key, default)]: only a dict has the method. *)
Definition get (v : Json) (key : string) (default : Json) : Result Json :=
  match v with
  | JObj fields => Ok (from_option id default (dict_lookup key fields))
  | _ => Raise AttributeError
  end.

Definition in_chars (c : ascii) (chars : string) : bool :=
  existsb (Ascii.eqb c) (list_ascii_of_string chars).

(** [s.rstrip(chars)]: drop the longest suffix made of characters of
    [chars]. *)
Fixpoint rstrip (chars : string) (s : string) : string :=
  match s with
  | EmptyString => EmptyString
  | String c rest =>
      match rstrip chars rest with
      | EmptyString => if in_chars c chars then EmptyString else String c EmptyString
      | r => String c r
      end
  end.

Definition upper_ascii (c : ascii) : ascii :=
  let n := nat_of_ascii c in
  if (97 <=? n)%nat && (n <=? 122)%nat then ascii_of_nat (n - 32) else c.

(** [s.upper()] on ASCII text. *)
Fixpoint upper (s : string) : string :=
  match s with
  | EmptyString => EmptyString
  | String c rest => String (upper_ascii c) (upper rest)
  end.

Definition lower_ascii (c : ascii) : ascii :=
  let n := nat_of_ascii c in
  if (65 <=? n)%nat && (n <=? 90)%nat then ascii_of_nat (n + 32) else c.

(** [s.lower()] on ASCII text. *)
Fixpoint lower (s : string) : string :=
  match s with
  | EmptyString => EmptyString
  | String c rest => String (lower_ascii c) (lower rest)
  end.

(** [s.lstrip(chars)] *)
Fixpoint lstrip (chars : string) (s : string) : string :=
  match s with
  | EmptyString => EmptyString
  | String c rest => if in_chars c chars then lstrip chars rest else s
  end.

(** The characters [strip()] removes when called without an argument: space,
    tab, line feed, vertical tab, form feed, carriage return. *)
Definition whitespace : string :=
  String " "%char (String "009"%char (String "010"%char (String "011"%char
    (String "012"%char (String "013"%char EmptyString))))).

(** [s.strip()] *)
Definition strip (s : string) : string :=
  lstrip whitespace (rstrip whitespace s).

(** [str(n)] for an integer. *)
Definition str_int (n : Z) : string := pretty n.

End Py.
Import Py.

(** ** HTTP as the clients see it *)

(** The arguments of one [session.request(method, url, headers=..., json=...)]
    call.  [req_json = None] is a call without the [json] keyword. *)
Record Request : Type := mkRequest {
  req_method : string;
  req_url : string;
  req_headers : gmap string string;
  req_json : option Json
}.

(** What [response.json()] does: return the decoded value, raise a
    [ValueError] whose [str] is [reason] (the decoding error of either
    library is one), or, in aiohttp only, raise [ContentTypeError] because of
    the media type of the response. *)
Inductive JsonResult : Type :=
| Decoded (v : Json)
| ValueError (reason : string)
| UnexpectedMimetype (mimetype : string).

(** A response, as the record of what a client reads from the response object
    of its library: the status ([status_code] in requests, [status] in
    aiohttp), the two headers that are looked at (header lookup ignores case
    in both libraries), the body text ([None] when reading it raises) and the
    outcome of [json()].  The two libraries do not make the same record of
    the same HTTP response: see [Requests.read] and [Aiohttp.read]. *)
Record Response : Type := mkResponse {
  status_code : Z;
  content_type : option string;
  retry_after : option string;
  text : option string;
  json : JsonResult
}.

(** One transmission ends with a response, or fails while connecting (refused,
    DNS, connect timeout) or while reading (reset, read timeout). *)
Inductive WireOutcome : Type :=
| Reply (r : Response)
| ConnectFailure (detail : string)
| ReadFailure (detail : string).

(** The environment: the server answers the latest transmission (the head of
    the history), and [exn_str] is [str(e)] of a transport exception. *)
Record Env : Type := mkEnv {
  server : list Request -> WireOutcome;
  exn_str : TransportError -> string
}.

(** The trace, most recent first: [calls] has the request of every
    [session.request] call, and [wire] has, for every transmission the session
    made, the request it was made for (as the session was given it: the
    headers that go out with it are [wire_headers]). *)
Record World : Type := mkWorld {
  wire : list Request;
  calls : list Request
}.

Definition M (A : Type) : Type := Env -> World -> Result A * World.

#[export] Instance M_ret : MRet M := fun A a _ w => (Ok a, w).
#[export] Instance M_bind : MBind M := fun A B f m env w =>
  match m env w with
  | (Ok a, w') => f a env w'
  | (Raise e, w') => (Raise e, w')
  end.

Definition lift {A : Type} (r : Result A) : M A := fun _ w => (r, w).
Definition raise {A : Type} (e : Exn) : M A := lift (Raise e).

(** [try: body / except <class> as e: handler e]; [handler] is [None] on the
    exceptions the clause does not match. *)
Definition try_except {A : Type} (body : M A) (handler : Exn -> option (M A)) : M A :=
  fun env w =>
    match body env w with
    | (Ok a, w') => (Ok a, w')
    | (Raise e, w') =>
        match handler e with
        | Some h => h env w'
        | None => (Raise e, w')
        end
    end.

(** One transmission of [req] by a session, and what comes of it. *)
Definition transmit (req : Request) : M WireOutcome := fun env w =>
  let w' := {| wire := req :: wire w; calls := calls w |} in
  (Ok (server env (wire w')), w').

Definition log_call (req : Request) : M unit := fun _ w =>
  (Ok tt, {| wire := wire w; calls := req :: calls w |}).

(** [not body] *)
Definition body_empty (body : option string) : bool :=
  match body with
  | None => true
  | Some s => String.eqb s ""
  end.

(** [body or 'No response body'] *)
Definition body_or (body : option string) (alt : string) : string :=
  match body with
  | None => alt
  | Some s => if String.eqb s "" then alt else s
  end.

(** The keyword arguments [_request] is called with. *)
Record Kwargs : Type := mkKwargs {
  kw_headers : option (gmap string string);
  kw_json : option Json
}.

Definition no_kwargs : Kwargs := {| kw_headers := None; kw_json := None |}.
Definition json_kwarg (j : Json) : Kwargs := {| kw_headers := None; kw_json := Some j |}.

(** ** The libraries between the clients and the network *)

(** [name in headers] for the header dicts of the libraries, which ignore the
    case of a name ([CaseInsensitiveDict] in requests, [CIMultiDict] in
    aiohttp). *)
Definition has_header (name : string) (headers : gmap string string) : bool :=
  existsb (λ kv, String.eqb (lower kv.1) (lower name)) (map_to_list headers).

(** The headers that go out with a request, as far as the call decides them.
    Both libraries serialise the value of the [json] keyword, unless it is
    [None], as the body of the request whatever the method, and then add
    [Content-Type: application/json] when the headers hold no Content-Type
    under any spelling ([PreparedRequest.prepare_body] in requests; in aiohttp
    the content type of the [JsonPayload], copied by
    [ClientRequest.update_body_from_data]).  The headers that do not depend on
    the call (Host, User-Agent, Content-Length and the like) are left out. *)
Definition wire_headers (req : Request) : gmap string string :=
  match req_json req with
  | None | Some JNull => req_headers req
  | Some _ =>
      if has_header "Content-Type" (req_headers req) then req_headers req
      else <["Content-Type" := "application/json"]> (req_headers req)
  end.

(** An HTTP response as the server sent it: the status, the value of its
    Content-Type and Retry-After headers (at most one of each) and the body.
    The body is a text that both libraries decode alike: bytes that are not
    valid in the charset of the response are replaced by requests and make
    aiohttp raise, and such a response is not described by this record. *)
Record HttpResponse : Type := mkHttpResponse {
  http_status : Z;
  http_content_type : option string;
  http_retry_after : option string;
  http_body : string
}.

(** What [json.loads] makes of a text: a value, or a [JSONDecodeError] (a
    [ValueError]) whose [str] is [msg]. *)
Inductive Parsed : Type :=
| Value (v : Json)
| JSONDecodeError (msg : string).

Definition of_parsed (p : Parsed) : JsonResult :=
  match p with
  | Value v => Decoded v
  | JSONDecodeError msg => ValueError msg
  end.

(** [requests.Response]: [json()] is [json.loads] of the text of the body,
    whatever the content type, and an empty or blank body is a decoding
    error.  The parameter [loads] is Python's [json.loads]. *)
Module Requests.

Definition json (loads : string -> Parsed) (h : HttpResponse) : JsonResult :=
  of_parsed (loads (http_body h)).

Definition read (loads : string -> Parsed) (h : HttpResponse) : Response :=
  mkResponse (http_status h) (http_content_type h) (http_retry_after h)
    (Some (http_body h)) (json loads h).

End Requests.

(** [aiohttp.ClientResponse]: [json()] first tests the lower-cased
    Content-Type and raises [ContentTypeError] when it is not a JSON one; it
    then strips the body, returns [None] when nothing is left, and otherwise
    is [json.loads] of the stripped body.  The test of the media type is the
    library's own and has changed between its releases, so it is the
    parameter [accepts]; every release accepts [application/json], with or
    without parameters. *)
Module Aiohttp.

Definition json (accepts : string -> bool) (loads : string -> Parsed) (h : HttpResponse) : JsonResult :=
  let ctype := lower (default "" (http_content_type h)) in
  if negb (accepts ctype) then UnexpectedMimetype ctype
  else
    let stripped := strip (http_body h) in
    if String.eqb stripped "" then Decoded JNull
    else of_parsed (loads stripped).

Definition read (accepts : string -> bool) (loads : string -> Parsed) (h : HttpResponse) : Response :=
  mkResponse (http_status h) (http_content_type h) (http_retry_after h)
    (Some (http_body h)) (json accepts loads h).

End Aiohttp.

(** ** The retry policy of the blocking session

    [requests.adapters.Retry] is urllib3's [Retry]; mounted on the session
    through [HTTPAdapter(max_retries=...)] it drives urllib3's [urlopen].  The
    definitions follow urllib3: the methods retried on a status are the
    idempotent ones, a status of [status_forcelist] is retried until [total]
    is used up and then raises (requests turns that into [RetryError]), a
    Retry-After header on 413, 429 or 503 is honoured while [total] is not
    zero, a failed connection counts against [total] for every method and a
    failed read only for the idempotent ones.  Backoff sleeps take time only. *)
Module Retry.

Record t : Type := mk {
  total : nat;
  status_forcelist : list Z
}.

Definition DEFAULT_ALLOWED_METHODS : list string :=
  ["HEAD"; "GET"; "PUT"; "DELETE"; "OPTIONS"; "TRACE"].

Definition RETRY_AFTER_STATUS_CODES : list Z := [413; 429; 503]%Z.

Definition in_codes (s : Z) (l : list Z) : bool := existsb (Z.eqb s) l.

Definition is_method_retryable (method : string) : bool :=
  in_list (upper method) DEFAULT_ALLOWED_METHODS.

Definition has_retry_after (r : Response) : bool :=
  match retry_after r with
  | None => false
  | Some v => negb (String.eqb v "")
  end.

Definition is_retry (total : nat) (forcelist : list Z) (method : string) (r : Response) : bool :=
  is_method_retryable method &&
  (in_codes (status_code r) forcelist ||
   (negb (total =? 0)%nat && has_retry_after r &&
    in_codes (status_code r) RETRY_AFTER_STATUS_CODES)).

(** [urlopen] with [total] retries left. *)
Fixpoint urlopen (total : nat) (forcelist : list Z) (req : Request) : M Response :=
  fun env w =>
    match transmit req env w with
    | (Ok (Reply r), w') =>
        if is_retry total forcelist (req_method req) r then
          match total with
          | O => (Raise (RequestException (RetryError (status_code r))), w')
          | S n => urlopen n forcelist req env w'
          end
        else (Ok r, w')
    | (Ok (ConnectFailure d), w') =>
        match total with
        | O => (Raise (RequestException (ConnectError d)), w')
        | S n => urlopen n forcelist req env w'
        end
    | (Ok (ReadFailure d), w') =>
        if is_method_retryable (req_method req) then
          match total with
          | O => (Raise (RequestException (ReadError d)), w')
          | S n => urlopen n forcelist req env w'
          end
        else (Raise (RequestException (ReadError d)), w')
    | (Raise e, w') => (Raise e, w')
    end.

End Retry.

(** ** The blocking client, [src/client.py] *)

Module MaseDBClient.

(** The part of the [requests.Session] configuration that decides what a call
    returns: the retry policy of the mounted adapter.  The session's default
    headers repeat [Accept] and [X-API-Key] with the values [_request] sets on
    every call. *)
Record Session : Type := mkSession {
  max_retries : Retry.t
}.

Record t : Type := mk {
  api_key : string;
  BASE_URL : string;
  session : Session
}.

(** The default of the [base_url] parameter. *)
Definition DEFAULT_BASE_URL : string := "https://masedb.maseai.online".

Definition __init__ (api_key base_url : string) : t :=
  let retry_strategy :=
    {| Retry.total := 3; Retry.status_forcelist := [500; 502; 503; 504]%Z |} in
  {| api_key := api_key;
     BASE_URL := rstrip "/" base_url;
     session := {| max_retries := retry_strategy |} |}.

(** [requests.Response.ok]: [raise_for_status] does not raise, that is the
    status is not in 400..599. *)
Definition ok (response : Response) : bool :=
  negb ((400 <=? status_code response)%Z && (status_code response <? 600)%Z).

(** [session.request(method, url, headers=headers, **kwargs)]: the call, and
    urllib3's [urlopen] under the retry policy of the adapter.  The response
    is the one requests hands to the caller: it is taken not to be a redirect
    that requests follows (301, 302, 303, 307 and 308 with a Location), and
    the [json] value is taken to be one [json.dumps] accepts. *)
Definition session_request (s : Session) (req : Request) : M Response :=
  _ ← log_call req;
  Retry.urlopen (Retry.total (max_retries s)) (Retry.status_forcelist (max_retries s)) req.

(** The [except ValueError] clauses catch the decoding error of [json()];
    whatever else is raised inside the [try] (by [json()], by the membership
    test, by a subscript or by [get]) leaves the handler. *)
Definition _handle_response (response : Response) : Result Json :=
  let body := text response in
  let content_type := default "" (content_type response) in
  if ok response then
    if body_empty body then Ok JNull
    else if negb (contains "application/json" content_type) then
      Raise (MaseDB (error_of_message
        ("Invalid response format: Expected JSON, got " +:+ content_type)))
    else
      match json response with
      | Decoded v => Ok v
      | ValueError e =>
          Raise (MaseDB (error_of_message ("Invalid JSON response: " +:+ e)))
      | UnexpectedMimetype m => Raise (ContentTypeError m)
      end
  else
    let error_message :=
      "HTTP " +:+ str_int (status_code response) +:+ ": " +:+
      body_or body "No response body" in
    if contains "application/json" content_type then
      match json response with
      | Decoded error_data =>
          has_error ← py_in "error" error_data;
          if has_error : bool then
            e1 ← getitem_str error_data "error";
            error_message' ← get e1 "message" (JStr error_message);
            e2 ← getitem_str error_data "error";
            error_code ← get e2 "code" (JStr "UNKNOWN_ERROR");
            e3 ← getitem_str error_data "error";
            error_details ← get e3 "details" (JObj []);
            Raise (MaseDB {| message := error_message';
                             code := Some error_code;
                             details := Some error_details |})
          else Raise (MaseDB (error_of_message error_message))
      | ValueError _ => Raise (MaseDB (error_of_message error_message))
      | UnexpectedMimetype m => Raise (ContentTypeError m)
      end
    else Raise (MaseDB (error_of_message error_message)).

Definition _request (self : t) (method endpoint : string) (kwargs : Kwargs) : M Json :=
  let url := BASE_URL self +:+ endpoint in
  let headers := default ∅ (kw_headers kwargs) in
  let headers := <["X-API-Key" := api_key self]> headers in
  let headers := <["Accept" := "application/json"]> headers in
  let headers :=
    if in_list method ["POST"; "PUT"]
    then <["Content-Type" := "application/json"]> headers
    else delete "Content-Type" headers in
  try_except
    (response ← session_request (session self)
                  (mkRequest method url headers (kw_json kwargs));
     lift (_handle_response response))
    (fun e =>
       match e with
       | RequestException t =>
           Some (fun env => raise (MaseDB (error_of_message
                   ("Request failed: " +:+ exn_str env t))) env)
       | _ => None
       end).

Definition list_collections (self : t) : M Json :=
  _request self "GET" "/api/collections" no_kwargs.

Definition create_collection (self : t) (name description : string) : M Json :=
  let data := JObj [("name", JStr name); ("description", JStr description)] in
  _request self "POST" "/api/collections" (json_kwarg data).

Definition get_collection (self : t) (name : string) : M Json :=
  _request self "GET" ("/api/collections/" +:+ name) no_kwargs.

Definition delete_collection (self : t) (name : string) : M Json :=
  _request self "DELETE" ("/api/collections/" +:+ name) no_kwargs.

Definition list_documents (self : t) (collection_name : string) (query : Json) : M Json :=
  _request self "GET" ("/api/" +:+ collection_name) (json_kwarg (or_ query (JObj []))).

Definition create_document (self : t) (collection_name : string) (document : Json) : M Json :=
  _request self "POST" ("/api/" +:+ collection_name) (json_kwarg document).

Definition find_one (self : t) (collection_name : string) (query : Json) : M Json :=
  results ← list_documents self collection_name query;
  if truthy results then lift (getitem_0 results) else mret JNull.

Definition insert_one (self : t) (collection_name : string) (document : Json) : M Json :=
  create_document self collection_name document.

Definition get_document (self : t) (collection_name document_id : string) (query : Json) : M Json :=
  _request self "GET" ("/api/" +:+ collection_name +:+ "/" +:+ document_id)
    (json_kwarg (or_ query (JObj []))).

Definition update_document (self : t) (collection_name document_id : string) (update : Json) : M Json :=
  _request self "PUT" ("/api/" +:+ collection_name +:+ "/" +:+ document_id)
    (json_kwarg update).

Definition delete_document (self : t) (collection_name document_id : string) : M Json :=
  _request self "DELETE" ("/api/" +:+ collection_name +:+ "/" +:+ document_id) no_kwargs.

Definition create_index (self : t) (collection_name : string) (fields : Json) : M Json :=
  let data := JObj [("fields", fields)] in
  _request self "POST" ("/api/collection/" +:+ collection_name +:+ "/index") (json_kwarg data).

Definition list_indexes (self : t) (collection_name : string) : M Json :=
  _request self "GET" ("/api/collection/" +:+ collection_name +:+ "/index") no_kwargs.

Definition start_transaction (self : t) : M Json :=
  _request self "POST" "/api/transaction" (json_kwarg (JObj [])).

Definition commit_transaction (self : t) (transaction_id : string) : M Json :=
  _request self "POST" ("/api/transaction/" +:+ transaction_id) no_kwargs.

Definition rollback_transaction (self : t) (transaction_id : string) : M Json :=
  _request self "POST" ("/api/transaction/" +:+ transaction_id +:+ "/rollback") no_kwargs.

Definition get_transaction_status (self : t) (transaction_id : string) : M Json :=
  _request self "GET" ("/api/transaction/" +:+ transaction_id) no_kwargs.

Definition get_stats (self : t) : M Json :=
  _request self "GET" "/api/stats" no_kwargs.

Definition get_detailed_stats (self : t) : M Json :=
  _request self "GET" "/api/stats/detailed" no_kwargs.

End MaseDBClient.

(** ** The non-blocking client, [src/async_client.py]

    A coroutine is the computation it runs when awaited; [await] is
    sequencing.  The [aiohttp.ClientSession] is created on entry of the
    [async with] bracket or on first use and carries [headers] as defaults; it
    has no retry policy. *)

Module AsyncMaseDBClient.

Record t : Type := mk {
  api_key : string;
  BASE_URL : string;
  headers : gmap string string
}.

(** The default of the [base_url] parameter. *)
Definition DEFAULT_BASE_URL : string := "https://masedb.maseai.online".

Definition __init__ (api_key base_url : string) : t :=
  {| api_key := api_key;
     BASE_URL := rstrip "/" base_url;
     headers := <["Accept" := "application/json"]> (<["X-API-Key" := api_key]> ∅) |}.

(** [aiohttp.ClientResponse.ok]: [400 > self.status]. *)
Definition ok (response : Response) : bool :=
  (status_code response <? 400)%Z.

(** [self.session.request(method, url, headers=headers, **kwargs)]: the call,
    and the exchange with the server that the session has no retry policy
    for; a failure raises out of the [async with].  The outcome is the one
    aiohttp hands to the caller: a redirect that aiohttp follows, and the
    second attempt it makes on its own when a kept-alive connection was
    closed by the server, are not told apart from it. *)
Definition session_request (req : Request) : M Response :=
  _ ← log_call req;
  outcome ← transmit req;
  match outcome with
  | Reply r => mret r
  | ConnectFailure d => raise (ClientError (ConnectError d))
  | ReadFailure d => raise (ClientError (ReadError d))
  end.

(** The [except ValueError] clauses catch the decoding error of [json()];
    whatever else is raised inside the [try] (by [json()], by the membership
    test, by a subscript or by [get]) leaves the handler. *)
Definition _handle_response (response : Response) : Result Json :=
  let body := text response in
  let content_type := default "" (content_type response) in
  if ok response then
    if body_empty body then Ok JNull
    else if negb (contains "application/json" content_type) then
      Raise (MaseDB (error_of_message
        ("Invalid response format: Expected JSON, got " +:+ content_type)))
    else
      match json response with
      | Decoded v => Ok v
      | ValueError e =>
          Raise (MaseDB (error_of_message ("Invalid JSON response: " +:+ e)))
      | UnexpectedMimetype m => Raise (ContentTypeError m)
      end
  else
    let error_message :=
      "HTTP " +:+ str_int (status_code response) +:+ ": " +:+
      body_or body "No response body" in
    if contains "application/json" content_type then
      match json response with
      | Decoded error_data =>
          has_error ← py_in "error" error_data;
          if has_error : bool then
            e1 ← getitem_str error_data "error";
            error_message' ← get e1 "message" (JStr error_message);
            e2 ← getitem_str error_data "error";
            error_code ← get e2 "code" (JStr "UNKNOWN_ERROR");
            e3 ← getitem_str error_data "error";
            error_details ← get e3 "details" (JObj []);
            Raise (MaseDB {| message := error_message';
                             code := Some error_code;
                             details := Some error_details |})
          else Raise (MaseDB (error_of_message error_message))
      | ValueError _ => Raise (MaseDB (error_of_message error_message))
      | UnexpectedMimetype m => Raise (ContentTypeError m)
      end
    else Raise (MaseDB (error_of_message error_message)).

Definition _request (self : t) (method endpoint : string) (kwargs : Kwargs) : M Json :=
  let url := BASE_URL self +:+ endpoint in
  let headers := default ∅ (kw_headers kwargs) in
  let headers := <["X-API-Key" := api_key self]> headers in
  let headers := <["Accept" := "application/json"]> headers in
  let headers :=
    if in_list method ["POST"; "PUT"]
    then <["Content-Type" := "application/json"]> headers
    else delete "Content-Type" headers in
  response ← session_request (mkRequest method url headers (kw_json kwargs));
  lift (_handle_response response).

Definition list_collections (self : t) : M Json :=
  _request self "GET" "/api/collections" no_kwargs.

Definition create_collection (self : t) (name description : string) : M Json :=
  let data := JObj [("name", JStr name); ("description", JStr description)] in
  _request self "POST" "/api/collections" (json_kwarg data).

Definition get_collection (self : t) (name : string) : M Json :=
  _request self "GET" ("/api/collections/" +:+ name) no_kwargs.

Definition delete_collection (self : t) (name : string) : M Json :=
  _request self "DELETE" ("/api/collections/" +:+ name) no_kwargs.

Definition list_documents (self : t) (collection_name : string) (query : Json) : M Json :=
  _request self "GET" ("/api/" +:+ collection_name) (json_kwarg (or_ query (JObj []))).

Definition create_document (self : t) (collection_name : string) (document : Json) : M Json :=
  _request self "POST" ("/api/" +:+ collection_name) (json_kwarg document).

Definition find_one (self : t) (collection_name : string) (query : Json) : M Json :=
  results ← list_documents self collection_name query;
  if truthy results then lift (getitem_0 results) else mret JNull.

Definition insert_one (self : t) (collection_name : string) (document : Json) : M Json :=
  create_document self collection_name document.

Definition get_document (self : t) (collection_name document_id : string) (query : Json) : M Json :=
  _request self "GET" ("/api/" +:+ collection_name +:+ "/" +:+ document_id)
    (json_kwarg (or_ query (JObj []))).

Definition update_document (self : t) (collection_name document_id : string) (update : Json) : M Json :=
  _request self "PUT" ("/api/" +:+ collection_name +:+ "/" +:+ document_id)
    (json_kwarg update).

Definition delete_document (self : t) (collection_name document_id : string) : M Json :=
  _request self "DELETE" ("/api/" +:+ collection_name +:+ "/" +:+ document_id) no_kwargs.

Definition create_index (self : t) (collection_name : string) (fields : Json) : M Json :=
  let data := JObj [("fields", fields)] in
  _request self "POST" ("/api/collection/" +:+ collection_name +:+ "/index") (json_kwarg data).

Definition list_indexes (self : t) (collection_name : string) : M Json :=
  _request self "GET" ("/api/collection/" +:+ collection_name +:+ "/index") no_kwargs.

Definition start_transaction (self : t) : M Json :=
  _request self "POST" "/api/transaction" (json_kwarg (JObj [])).

Definition commit_transaction (self : t) (transaction_id : string) : M Json :=
  _request self "POST" ("/api/transaction/" +:+ transaction_id) no_kwargs.

Definition rollback_transaction (self : t) (transaction_id : string) : M Json :=
  _request self "POST" ("/api/transaction/" +:+ transaction_id +:+ "/rollback") no_kwargs.

Definition get_transaction_status (self : t) (transaction_id : string) : M Json :=
  _request self "GET" ("/api/transaction/" +:+ transaction_id) no_kwargs.

Definition get_stats (self : t) : M Json :=
  _request self "GET" "/api/stats" no_kwargs.

Definition get_detailed_stats (self : t) : M Json :=
  _request self "GET" "/api/stats/detailed" no_kwargs.

End AsyncMaseDBClient.

(** ** Method calls as data

    One constructor per public method with its arguments ([query] is [JNull]
    when the optional argument is left out), and the dispatch of a call to
    either client. *)

Inductive ApiCall : Type :=
| ListCollections
| CreateCollection (name description : string)
| GetCollection (name : string)
| DeleteCollection (name : string)
| ListDocuments (collection_name : string) (query : Json)
| CreateDocument (collection_name : string) (document : Json)
| FindOne (collection_name : string) (query : Json)
| InsertOne (collection_name : string) (document : Json)
| GetDocument (collection_name document_id : string) (query : Json)
| UpdateDocument (collection_name document_id : string) (update : Json)
| DeleteDocument (collection_name document_id : string)
| CreateIndex (collection_name : string) (fields : Json)
| ListIndexes (collection_name : string)
| StartTransaction
| CommitTransaction (transaction_id : string)
| RollbackTransaction (transaction_id : string)
| GetTransactionStatus (transaction_id : string)
| GetStats
| GetDetailedStats.

Definition invoke_blocking (self : MaseDBClient.t) (c : ApiCall) : M Json :=
  match c with
  | ListCollections => MaseDBClient.list_collections self
  | CreateCollection n d => MaseDBClient.create_collection self n d
  | GetCollection n => MaseDBClient.get_collection self n
  | DeleteCollection n => MaseDBClient.delete_collection self n
  | ListDocuments cn q => MaseDBClient.list_documents self cn q
  | CreateDocument cn d => MaseDBClient.create_document self cn d
  | FindOne cn q => MaseDBClient.find_one self cn q
  | InsertOne cn d => MaseDBClient.insert_one self cn d
  | GetDocument cn i q => MaseDBClient.get_document self cn i q
  | UpdateDocument cn i u => MaseDBClient.update_document self cn i u
  | DeleteDocument cn i => MaseDBClient.delete_document self cn i
  | CreateIndex cn f => MaseDBClient.create_index self cn f
  | ListIndexes cn => MaseDBClient.list_indexes self cn
  | StartTransaction => MaseDBClient.start_transaction self
  | CommitTransaction i => MaseDBClient.commit_transaction self i
  | RollbackTransaction i => MaseDBClient.rollback_transaction self i
  | GetTransactionStatus i => MaseDBClient.get_transaction_status self i
  | GetStats => MaseDBClient.get_stats self
  | GetDetailedStats => MaseDBClient.get_detailed_stats self
  end.

Definition invoke_async (self : AsyncMaseDBClient.t) (c : ApiCall) : M Json :=
  match c with
  | ListCollections => AsyncMaseDBClient.list_collections self
  | CreateCollection n d => AsyncMaseDBClient.create_collection self n d
  | GetCollection n => AsyncMaseDBClient.get_collection self n
  | DeleteCollection n => AsyncMaseDBClient.delete_collection self n
  | ListDocuments cn q => AsyncMaseDBClient.list_documents self cn q
  | CreateDocument cn d => AsyncMaseDBClient.create_document self cn d
  | FindOne cn q => AsyncMaseDBClient.find_one self cn q
  | InsertOne cn d => AsyncMaseDBClient.insert_one self cn d
  | GetDocument cn i q => AsyncMaseDBClient.get_document self cn i q
  | UpdateDocument cn i u => AsyncMaseDBClient.update_document self cn i u
  | DeleteDocument cn i => AsyncMaseDBClient.delete_document self cn i
  | CreateIndex cn f => AsyncMaseDBClient.create_index self cn f
  | ListIndexes cn => AsyncMaseDBClient.list_indexes self cn
  | StartTransaction => AsyncMaseDBClient.start_transaction self
  | CommitTransaction i => AsyncMaseDBClient.commit_transaction self i
  | RollbackTransaction i => AsyncMaseDBClient.rollback_transaction self i
  | GetTransactionStatus i => AsyncMaseDBClient.get_transaction_status self i
  | GetStats => AsyncMaseDBClient.get_stats self
  | GetDetailedStats => AsyncMaseDBClient.get_detailed_stats self
  end.

(** ** The request a call hands to the session *)

(** The header computation of [_request], which the two clients share word
    for word: the caller's headers (or an empty dict), then the API key, then
    [Accept], then [Content-Type] set or removed by method. *)
Definition request_headers (api_key method : string) (given : option (gmap string string)) : gmap string string :=
  let headers := default ∅ given in
  let headers := <["X-API-Key" := api_key]> headers in
  let headers := <["Accept" := "application/json"]> headers in
  if in_list method ["POST"; "PUT"]
  then <["Content-Type" := "application/json"]> headers
  else delete "Content-Type" headers.

Definition built_request (api_key BASE_URL method endpoint : string) (kwargs : Kwargs) : Request :=
  mkRequest method (BASE_URL +:+ endpoint)
    (request_headers api_key method (kw_headers kwargs)) (kw_json kwargs).

(** ** The specification's side *)

(** The method catalog of section 4.1 of the specification: HTTP method, path
    and body of every public method.  [find_one] is listed as calling
    [list_documents] and [insert_one] as an alias of [create_document]; the
    body of [list_documents] is the query filter or an empty object, and so is
    the optional filter of [get_document]. *)
Definition catalog (c : ApiCall) : string * string * option Json :=
  match c with
  | ListCollections => ("GET", "/api/collections", None)
  | CreateCollection n d =>
      ("POST", "/api/collections",
       Some (JObj [("name", JStr n); ("description", JStr d)]))
  | GetCollection n => ("GET", "/api/collections/" +:+ n, None)
  | DeleteCollection n => ("DELETE", "/api/collections/" +:+ n, None)
  | ListDocuments cn q | FindOne cn q =>
      ("GET", "/api/" +:+ cn, Some (or_ q (JObj [])))
  | CreateDocument cn d | InsertOne cn d => ("POST", "/api/" +:+ cn, Some d)
  | GetDocument cn i q =>
      ("GET", "/api/" +:+ cn +:+ "/" +:+ i, Some (or_ q (JObj [])))
  | UpdateDocument cn i u => ("PUT", "/api/" +:+ cn +:+ "/" +:+ i, Some u)
  | DeleteDocument cn i => ("DELETE", "/api/" +:+ cn +:+ "/" +:+ i, None)
  | CreateIndex cn f =>
      ("POST", "/api/collection/" +:+ cn +:+ "/index", Some (JObj [("fields", f)]))
  | ListIndexes cn => ("GET", "/api/collection/" +:+ cn +:+ "/index", None)
  | StartTransaction => ("POST", "/api/transaction", Some (JObj []))
  | CommitTransaction i => ("POST", "/api/transaction/" +:+ i, None)
  | RollbackTransaction i => ("POST", "/api/transaction/" +:+ i +:+ "/rollback", None)
  | GetTransactionStatus i => ("GET", "/api/transaction/" +:+ i, None)
  | GetStats => ("GET", "/api/stats", None)
  | GetDetailedStats => ("GET", "/api/stats/detailed", None)
  end.

(** The header policy of sections 4.1 and 6: the API key and [Accept] always,
    [Content-Type] only on POST and PUT. *)
Definition spec_headers (api_key method : string) : gmap string string :=
  let always := <["X-API-Key" := api_key]> (<["Accept" := "application/json"]> ∅) in
  if in_list method ["POST"; "PUT"]
  then <["Content-Type" := "application/json"]> always
  else always.

(** The request the specification expects of a call, for a client whose base
    URL is [BASE_URL]. *)
Definition expected_request (api_key BASE_URL : string) (c : ApiCall) : Request :=
  let '(method, path, body) := catalog c in
  mkRequest method (BASE_URL +:+ path) (spec_headers api_key method) body.

(** The composition of [find_one]: the first element, or null. *)
Definition first_or_null (results : Json) : Result Json :=
  if truthy results then getitem_0 results else Ok JNull.

(** What a method does with the outcome of its request: [find_one] takes the
    first element, every other method returns it. *)
Definition finish (c : ApiCall) (outcome : Result Json) : Result Json :=
  match c with
  | FindOne _ _ => outcome ≫= first_or_null
  | _ => outcome
  end.

(** The headers dict of a request, as given to [session.request], satisfies
    the Content-Type policy of the specification. *)
Definition content_type_policy (req : Request) : Prop :=
  (req_method req = "POST" ∨ req_method req = "PUT" →
   req_headers req !! "Content-Type" = Some "application/json") ∧
  (req_method req = "GET" ∨ req_method req = "DELETE" →
   req_headers req !! "Content-Type" = None).

(** A request presents the key and asks for JSON. *)
Definition authenticated (api_key : string) (req : Request) : Prop :=
  req_headers req !! "X-API-Key" = Some api_key ∧
  req_headers req !! "Accept" = Some "application/json".

(** The world after one [session.request] call with [req] that put [req] on
    the wire [n] times. *)
Definition sent (req : Request) (n : nat) (w : World) : World :=
  {| wire := replicate n req ++ wire w; calls := req :: calls w |}.

(** A run from [w] made exactly one [session.request] call, with [req], and
    every transmission of the session was made for [req]. *)
Definition issues (run : Result Json * World) (w : World) (req : Request) : Prop :=
  ∃ n, snd run = sent req (S n) w.

(** ['/' * n] *)
Fixpoint str_repeat (s : string) (n : nat) : string :=
  match n with
  | O => ""
  | S n' => s +:+ str_repeat s n'
  end.

(** [s.endswith(c)] for one character. *)
Fixpoint endswith_char (s : string) (c : ascii) : bool :=
  match s with
  | EmptyString => false
  | String a EmptyString => Ascii.eqb a c
  | String _ rest => endswith_char rest c
  end.

(** A caller that makes the calls [cs] one after the other, going on after an
    error: the world it leaves behind. *)
Fixpoint perform (invoke : ApiCall -> M Json) (cs : list ApiCall) (env : Env) (w : World) : World :=
  match cs with
  | [] => w
  | c :: rest => perform invoke rest env (invoke c env w).2
  end.

(** Every request handed to [session.request] so far is authenticated, and
    its headers dict follows the Content-Type policy. *)
Definition well_formed (api_key : string) (w : World) : Prop :=
  Forall (λ req, authenticated api_key req ∧ content_type_policy req) (calls w).

(** ** Shapes of a decoded body *)

(** [None], a bool or a number: a value that has no [in] and no subscript. *)
Definition is_scalar (v : Json) : bool :=
  match v with
  | JNull | JBool _ | JInt _ | JFloat _ => true
  | JStr _ | JArr _ | JObj _ => false
  end.

Definition is_object (v : Json) : bool :=
  match v with
  | JObj _ => true
  | _ => false
  end.

(** ** The session of the non-blocking client

    [__aenter__], [__aexit__] and the [session] property of
    [AsyncMaseDBClient].  An [aiohttp.ClientSession] object is told apart by
    the order of its creation; the state is the [_session] attribute of the
    client together with the sessions created so far and the ones among them
    that have not been closed. *)
Module AsyncSession.

Record State : Type := mkState {
  _session : option nat;
  created : nat;
  unclosed : list nat
}.

(** The state [__init__] leaves: [self._session = None]. *)
Definition initial : State := {| _session := None; created := 0; unclosed := [] |}.

(** [aiohttp.ClientSession(headers=self.headers)]: a new object. *)
Definition ClientSession (st : State) : nat * State :=
  (created st,
   {| _session := _session st;
      created := S (created st);
      unclosed := created st :: unclosed st |}).

(** [await s.close()] *)
Definition close (s : nat) (st : State) : State :=
  {| _session := _session st;
     created := created st;
     unclosed := filter (λ x, x ≠ s) (unclosed st) |}.

Definition set_session (v : option nat) (st : State) : State :=
  {| _session := v; created := created st; unclosed := unclosed st |}.

Definition __aenter__ (st : State) : State :=
  let '(s, st') := ClientSession st in
  set_session (Some s) st'.

Definition __aexit__ (st : State) : State :=
  match _session st with
  | Some s => set_session None (close s st)
  | None => st
  end.

(** The [session] property: the session in use, created when there is none. *)
Definition session (st : State) : nat * State :=
  match _session st with
  | None =>
      let '(s, st') := ClientSession st in
      (s, set_session (Some s) st')
  | Some s => (s, st)
  end.

(** What a caller does with the client: enter the [async with] bracket, leave
    it, or call a method, which reads [self.session] once. *)
Inductive Step : Type :=
| Enter
| Exit
| Call.

(** The sessions the calls of [steps] went through, in order, and the state
    afterwards. *)
Fixpoint run (steps : list Step) (st : State) : list nat * State :=
  match steps with
  | [] => ([], st)
  | Enter :: rest => run rest (__aenter__ st)
  | Exit :: rest => run rest (__aexit__ st)
  | Call :: rest =>
      let '(s, st') := session st in
      let '(used, st'') := run rest st' in
      (s :: used, st'')
  end.

(** Every session that exists was created before now. *)
Definition consistent (st : State) : Prop :=
  Forall (λ s, s < created st) (unclosed st) ∧
  (∀ s, _session st = Some s → s < created st).

End AsyncSession.

(** ** Sample environments *)

(** [str(e)] of a transport exception, reduced to its cause. *)
Definition plain_str (e : TransportError) : string :=
  match e with
  | ConnectError d => d
  | ReadError d => d
  | RetryError s => "too many " +:+ str_int s +:+ " error responses"
  end.

(** A server that answers the [i]-th transmission with the [i]-th entry of
    [script], and with [final] once the script is used up. *)
Definition scripted (script : list WireOutcome) (final : WireOutcome) : Env :=
  {| server := fun history => nth (length history - 1) script final;
     exn_str := plain_str |}.

Definition fresh : World := {| wire := []; calls := [] |}.

Definition ok_body : Json := JObj [("message", JStr "Collection created successfully")].

(** [s] between double quotes. *)
Definition quoted (s : string) : string :=
  String "034"%char (s +:+ String "034"%char EmptyString).

Definition reply_200 : Response :=
  {| status_code := 200; content_type := Some "application/json";
     retry_after := None;
     text := Some ("{" +:+ quoted "message" +:+ ": " +:+
                   quoted "Collection created successfully" +:+ "}");
     json := Decoded ok_body |}.

Definition reply_list : Response :=
  {| status_code := 200; content_type := Some "application/json";
     retry_after := None;
     text := Some ("[{" +:+ quoted "name" +:+ ": " +:+ quoted "users" +:+ "}]");
     json := Decoded (JArr [JObj [("name", JStr "users")]]) |}.

Definition busy_503 : Response :=
  {| status_code := 503; content_type := Some "text/plain";
     retry_after := None; text := Some "busy";
     json := ValueError "Expecting value" |}.

(** The body [{error: {code: NOT_FOUND, message: no such doc, details: {}}}]
    as [json()] decodes it. *)
Definition not_found_body : Json :=
  JObj [("error", JObj [("code", JStr "NOT_FOUND");
                        ("message", JStr "no such doc");
                        ("details", JObj [])])].

Definition error_reply (status : Z) : Response :=
  {| status_code := status; content_type := Some "application/json";
     retry_after := None;
     text := Some ("{" +:+ quoted "error" +:+ ": {" +:+
                   quoted "code" +:+ ": " +:+ quoted "NOT_FOUND" +:+ ", " +:+
                   quoted "message" +:+ ": " +:+ quoted "no such doc" +:+ ", " +:+
                   quoted "details" +:+ ": {}}}");
     json := Decoded not_found_body |}.

(** 304 Not Modified: no body, no content type. *)
Definition not_modified : Response :=
  {| status_code := 304; content_type := None; retry_after := None;
     text := Some EmptyString; json := ValueError "Expecting value" |}.

(** A 500 whose JSON body is the literal [null]. *)
Definition null_500 : Response :=
  {| status_code := 500; content_type := Some "application/json";
     retry_after := None; text := Some "null"; json := Decoded JNull |}.

Definition refusing : Env := scripted [] (ConnectFailure "Connection refused").
Definition busy_then_ok : Env := scripted [Reply busy_503] (Reply reply_list).
Definition always (r : Response) : Env := scripted [] (Reply r).

(** A 200 that carries an HTML page. *)
Definition html_200 : Response :=
  {| status_code := 200; content_type := Some "text/html";
     retry_after := None; text := Some "<html></html>";
     json := ValueError "Expecting value" |}.

(** A 404 whose error object has a code and nothing else. *)
Definition bare_error_404 : Response :=
  {| status_code := 404; content_type := Some "application/json";
     retry_after := None;
     text := Some ("{" +:+ quoted "error" +:+ ": {" +:+
                   quoted "code" +:+ ": " +:+ quoted "NOT_FOUND" +:+ "}}");
     json := Decoded (JObj [("error", JObj [("code", JStr "NOT_FOUND")])]) |}.


(** [json.loads] on the bodies of the examples: the texts of an empty array,
    of an empty object and of null decode, and the empty text and the word
    busy are refused with the message Python gives for them. *)
Definition loads_sample (s : string) : Parsed :=
  if String.eqb s "[]" then Value (JArr [])
  else if String.eqb s "{}" then Value (JObj [])
  else if String.eqb s "null" then Value JNull
  else JSONDecodeError "Expecting value: line 1 column 1 (char 0)".

(** A test of the media type for the examples: it accepts what starts with
    application/json. *)
Definition accepts_sample (ctype : string) : bool :=
  String.prefix "application/json" ctype.

Definition http_503_busy : HttpResponse :=
  {| http_status := 503; http_content_type := Some "text/plain";
     http_retry_after := None; http_body := "busy" |}.

(** A 404 whose JSON body is an object without members. *)
Definition http_404_empty_object : HttpResponse :=
  {| http_status := 404; http_content_type := Some "application/json";
     http_retry_after := None; http_body := "{}" |}.

(** A 404 that announces JSON and has no body. *)
Definition http_404_no_body : HttpResponse :=
  {| http_status := 404; http_content_type := Some "application/json";
     http_retry_after := None; http_body := "" |}.

(** 304 Not Modified as the server sends it. *)
Definition http_304 : HttpResponse :=
  {| http_status := 304; http_content_type := None;
     http_retry_after := None; http_body := "" |}.

(** ** Sanity checks *)

Example rstrip_ex : rstrip "/" "https://h//" = "https://h".
Proof. reflexivity. Qed.
Example upper_ex : upper "get" = "GET".
Proof. reflexivity. Qed.
Example str_int_ex : str_int 404 = "404".
Proof. reflexivity. Qed.
Example lower_ex : lower "Content-Type" = "content-type".
Proof. reflexivity. Qed.
Example strip_ex : strip (String "010"%char "  [] ") = "[]".
Proof. reflexivity. Qed.
Example contains_ex : contains "application/json" "application/json; charset=utf-8" = true.
Proof. reflexivity. Qed.

(** ** The runs of [_request] *)

Lemma M_bind_unfold {A B : Type} (f : A -> M B) (m : M A) env w :
  (m ≫= f) env w =
  match m env w with
  | (Ok a, w') => f a env w'
  | (Raise e, w') => (Raise e, w')
  end.
Proof. reflexivity. Qed.

Lemma replicate_cons_app {A : Type} (x : A) (n : nat) (l : list A) :
  replicate n x ++ x :: l = replicate (S n) x ++ l.
Proof.
  induction n as [|n IH]; simpl; [reflexivity|].
  f_equal. exact IH.
Qed.

(** Whatever happens, [urlopen] puts the same request on the wire between one
    and [total + 1] times and leaves the call log alone. *)
Lemma urlopen_trace total forcelist req env w :
  ∃ n, (n ≤ total)%nat ∧
       wire (snd (Retry.urlopen total forcelist req env w)) = replicate (S n) req ++ wire w ∧
       calls (snd (Retry.urlopen total forcelist req env w)) = calls w.
Proof.
  revert w. induction total as [|total IH]; intros w; simpl.
  - exists 0%nat. unfold transmit; simpl.
    destruct (server env (req :: wire w)) as [r|d|d]; simpl.
    + destruct (Retry.is_retry 0 forcelist (req_method req) r); simpl; auto.
    + auto.
    + destruct (Retry.is_method_retryable (req_method req)); simpl; auto.
  - unfold transmit; simpl.
    set (w1 := {| wire := req :: wire w; calls := calls w |}).
    destruct (IH w1) as (n & Hn & Hw & Hc).
    assert (Hstep : ∃ m, (m ≤ S total)%nat ∧
              wire (snd (Retry.urlopen total forcelist req env w1)) = replicate (S m) req ++ wire w ∧
              calls (snd (Retry.urlopen total forcelist req env w1)) = calls w).
    { exists (S n). split; [lia|]. split; [|exact Hc].
      rewrite Hw. simpl. f_equal. apply (replicate_cons_app req n (wire w)). }
    assert (Hstop : ∃ m, (m ≤ S total)%nat ∧
              wire w1 = replicate (S m) req ++ wire w ∧ calls w1 = calls w).
    { exists 0%nat. split; [lia|]. split; reflexivity. }
    destruct (server env (req :: wire w)) as [r|d|d]; simpl.
    + destruct (Retry.is_retry (S total) forcelist (req_method req) r); simpl; auto.
    + auto.
    + destruct (Retry.is_method_retryable (req_method req)); simpl; auto.
Qed.

(** A response that the policy does not retry is returned after a single
    transmission. *)
Lemma urlopen_delivered total forcelist req env w r :
  server env (req :: wire w) = Reply r →
  Retry.is_retry total forcelist (req_method req) r = false →
  Retry.urlopen total forcelist req env w =
    (Ok r, {| wire := req :: wire w; calls := calls w |}).
Proof.
  intros Hs Hr.
  destruct total; simpl; unfold transmit; simpl; rewrite Hs, Hr; reflexivity.
Qed.

(** Case analysis over every path of a response handler whose outcome is
    pinned down by a hypothesis. *)
Ltac handler_cases :=
  repeat case_match; simplify_eq;
  unfold mbind, Result_bind, py_in, getitem_str, get in *;
  repeat case_match; simplify_eq.

(** The blocking response handler raises nothing that the [except] clause of
    [_request] would catch. *)
Lemma blocking_handle_not_transport r t :
  MaseDBClient._handle_response r ≠ Raise (RequestException t).
Proof.
  unfold MaseDBClient._handle_response.
  intros H. handler_cases.
Qed.

(** The blocking [_request]: one [session.request] call, the built request on
    the wire between one and four times. *)
Lemma blocking_request_trace self method endpoint kwargs env w :
  let req := built_request (MaseDBClient.api_key self) (MaseDBClient.BASE_URL self)
               method endpoint kwargs in
  ∃ n, (n ≤ Retry.total (MaseDBClient.max_retries (MaseDBClient.session self)))%nat ∧
       snd (MaseDBClient._request self method endpoint kwargs env w) = sent req (S n) w.
Proof.
  intros req.
  unfold MaseDBClient._request, try_except, MaseDBClient.session_request.
  fold (request_headers (MaseDBClient.api_key self) method (kw_headers kwargs)).
  fold (built_request (MaseDBClient.api_key self) (MaseDBClient.BASE_URL self)
          method endpoint kwargs).
  fold req.
  rewrite !M_bind_unfold. unfold log_call.
  set (w1 := {| wire := wire w; calls := req :: calls w |}).
  destruct (urlopen_trace
              (Retry.total (MaseDBClient.max_retries (MaseDBClient.session self)))
              (Retry.status_forcelist (MaseDBClient.max_retries (MaseDBClient.session self)))
              req env w1) as (n & Hn & Hw & Hc).
  exists n. split; [exact Hn|].
  destruct (Retry.urlopen _ _ req env w1) as [[r|e] w2] eqn:Hrun; simpl in Hw, Hc.
  - unfold lift. destruct (MaseDBClient._handle_response r) as [v|e] eqn:Hh; simpl.
    + destruct w2; simpl in *; subst; reflexivity.
    + destruct e; simpl; destruct w2; simpl in *; subst; reflexivity.
  - destruct e; simpl; destruct w2; simpl in *; subst; reflexivity.
Qed.

(** When the session returns a response that the retry policy lets through,
    the blocking [_request] is the response handler applied to it. *)
Lemma blocking_request_delivered self method endpoint kwargs env w r :
  let req := built_request (MaseDBClient.api_key self) (MaseDBClient.BASE_URL self)
               method endpoint kwargs in
  server env (req :: wire w) = Reply r →
  Retry.is_retry (Retry.total (MaseDBClient.max_retries (MaseDBClient.session self)))
    (Retry.status_forcelist (MaseDBClient.max_retries (MaseDBClient.session self)))
    method r = false →
  MaseDBClient._request self method endpoint kwargs env w =
    (MaseDBClient._handle_response r, sent req 1 w).
Proof.
  intros req Hs Hr.
  unfold MaseDBClient._request, try_except, MaseDBClient.session_request.
  fold (request_headers (MaseDBClient.api_key self) method (kw_headers kwargs)).
  fold (built_request (MaseDBClient.api_key self) (MaseDBClient.BASE_URL self)
          method endpoint kwargs).
  fold req.
  rewrite !M_bind_unfold. unfold log_call.
  rewrite (urlopen_delivered _ _ req env _ r); [|exact Hs|exact Hr].
  unfold lift, sent. simpl.
  destruct (MaseDBClient._handle_response r) as [v|e] eqn:Hh; [reflexivity|].
  destruct e; try reflexivity.
  exfalso. exact (blocking_handle_not_transport r _ Hh).
Qed.

(** The non-blocking [_request] is a single exchange; whatever comes back
    is handled or, for a failure, raised as it is. *)
Lemma async_request_run self method endpoint kwargs env w :
  let req := built_request (AsyncMaseDBClient.api_key self) (AsyncMaseDBClient.BASE_URL self)
               method endpoint kwargs in
  AsyncMaseDBClient._request self method endpoint kwargs env w =
    (match server env (req :: wire w) with
     | Reply r => AsyncMaseDBClient._handle_response r
     | ConnectFailure d => Raise (ClientError (ConnectError d))
     | ReadFailure d => Raise (ClientError (ReadError d))
     end, sent req 1 w).
Proof.
  intros req.
  unfold AsyncMaseDBClient._request, AsyncMaseDBClient.session_request.
  fold (request_headers (AsyncMaseDBClient.api_key self) method (kw_headers kwargs)).
  fold (built_request (AsyncMaseDBClient.api_key self) (AsyncMaseDBClient.BASE_URL self)
          method endpoint kwargs).
  fold req.
  unfold mbind, M_bind, mret, M_ret, raise, lift, log_call, transmit, sent. simpl.
  destruct (server env (req :: wire w)); reflexivity.
Qed.

(** On a status below 600 the two libraries agree on [ok], and then the two
    response handlers are the same function. *)
Lemma handlers_agree r :
  (status_code r < 600)%Z →
  MaseDBClient._handle_response r = AsyncMaseDBClient._handle_response r.
Proof.
  intros Hlt.
  assert (Hok : MaseDBClient.ok r = AsyncMaseDBClient.ok r).
  { unfold MaseDBClient.ok, AsyncMaseDBClient.ok.
    destruct (Z.ltb_spec (status_code r) 400), (Z.leb_spec 400 (status_code r)),
             (Z.ltb_spec (status_code r) 600); simpl; try reflexivity; lia. }
  unfold MaseDBClient._handle_response, AsyncMaseDBClient._handle_response.
  rewrite Hok. reflexivity.
Qed.

(** At a status of 600 or more the libraries part: requests still reports
    [ok], aiohttp does not. *)
Example handlers_differ_at_600 :
  MaseDBClient._handle_response (error_reply 600) = Ok not_found_body ∧
  AsyncMaseDBClient._handle_response (error_reply 600) =
    Raise (MaseDB {| message := JStr "no such doc";
                     code := Some (JStr "NOT_FOUND");
                     details := Some (JObj []) |}).
Proof. split; vm_compute; reflexivity. Qed.

(** ** The requests of the public methods *)

(** Without caller headers, [_request] builds the headers the specification
    lists. *)
Lemma request_headers_spec api_key method :
  request_headers api_key method None = spec_headers api_key method.
Proof.
  unfold request_headers, spec_headers. simpl default.
  assert (Hswap : <["Accept" := "application/json"]> (<["X-API-Key" := api_key]> (∅ : gmap string string))
                  = <["X-API-Key" := api_key]> (<["Accept" := "application/json"]> ∅)).
  { apply insert_insert_ne. discriminate. }
  rewrite Hswap.
  destruct (in_list method ["POST"; "PUT"]); [reflexivity|].
  apply delete_id.
  rewrite lookup_insert_ne by discriminate.
  rewrite lookup_insert_ne by discriminate.
  apply lookup_empty.
Qed.

Lemma built_is_expected api_key BASE_URL c :
  built_request api_key BASE_URL (catalog c).1.1 (catalog c).1.2
    {| kw_headers := None; kw_json := (catalog c).2 |}
  = expected_request api_key BASE_URL c.
Proof.
  unfold built_request, expected_request. simpl kw_headers. simpl kw_json.
  rewrite request_headers_spec.
  destruct (catalog c) as [[m p] b]. reflexivity.
Qed.

(** Every public method is its catalog entry handed to [_request], followed
    by [finish]. *)
Lemma invoke_blocking_run self c env w :
  invoke_blocking self c env w =
    (finish c (MaseDBClient._request self (catalog c).1.1 (catalog c).1.2
                 {| kw_headers := None; kw_json := (catalog c).2 |} env w).1,
     (MaseDBClient._request self (catalog c).1.1 (catalog c).1.2
        {| kw_headers := None; kw_json := (catalog c).2 |} env w).2).
Proof.
  destruct c; simpl catalog; simpl finish; cbv beta iota;
    try (apply surjective_pairing).
  unfold invoke_blocking, MaseDBClient.find_one, MaseDBClient.list_documents, json_kwarg.
  rewrite M_bind_unfold.
  destruct (MaseDBClient._request _ _ _ _ env w) as [[v|e] w']; simpl; [|reflexivity].
  unfold first_or_null. destruct (truthy v); reflexivity.
Qed.

Lemma invoke_async_run self c env w :
  invoke_async self c env w =
    (finish c (AsyncMaseDBClient._request self (catalog c).1.1 (catalog c).1.2
                 {| kw_headers := None; kw_json := (catalog c).2 |} env w).1,
     (AsyncMaseDBClient._request self (catalog c).1.1 (catalog c).1.2
        {| kw_headers := None; kw_json := (catalog c).2 |} env w).2).
Proof.
  destruct c; simpl catalog; simpl finish; cbv beta iota;
    try (apply surjective_pairing).
  unfold invoke_async, AsyncMaseDBClient.find_one, AsyncMaseDBClient.list_documents, json_kwarg.
  rewrite M_bind_unfold.
  destruct (AsyncMaseDBClient._request _ _ _ _ env w) as [[v|e] w']; simpl; [|reflexivity].
  unfold first_or_null. destruct (truthy v); reflexivity.
Qed.

(** ** Transport failures *)

Lemma async_handle_not_transport r :
  (∀ t, AsyncMaseDBClient._handle_response r ≠ Raise (RequestException t)) ∧
  (∀ t, AsyncMaseDBClient._handle_response r ≠ Raise (ClientError t)).
Proof.
  unfold AsyncMaseDBClient._handle_response.
  split; intros t H; handler_cases.
Qed.

Lemma blocking_handle_not_client_error r t :
  MaseDBClient._handle_response r ≠ Raise (ClientError t).
Proof.
  unfold MaseDBClient._handle_response.
  intros H. handler_cases.
Qed.

(** [urlopen] raises nothing but [RequestException]. *)
Lemma urlopen_raises total forcelist req env w e :
  (Retry.urlopen total forcelist req env w).1 = Raise e →
  ∃ t, e = RequestException t.
Proof.
  revert w. induction total as [|total IH]; intros w; simpl; unfold transmit; simpl.
  - destruct (server env (req :: wire w)) as [r|d|d]; simpl.
    + destruct (Retry.is_retry 0 forcelist (req_method req) r); simpl;
        intros H; simplify_eq; eauto.
    + intros H; simplify_eq; eauto.
    + destruct (Retry.is_method_retryable (req_method req)); simpl;
        intros H; simplify_eq; eauto.
  - destruct (server env (req :: wire w)) as [r|d|d]; simpl.
    + destruct (Retry.is_retry (S total) forcelist (req_method req) r); simpl.
      * apply IH.
      * intros H; simplify_eq.
    + apply IH.
    + destruct (Retry.is_method_retryable (req_method req)); simpl.
      * apply IH.
      * intros H; simplify_eq; eauto.
Qed.

(** The blocking client: whatever [_request] raises, it is not a transport
    exception: a failure of the session is caught and wrapped. *)
Lemma blocking_request_wraps_transport self method endpoint kwargs env w e :
  (MaseDBClient._request self method endpoint kwargs env w).1 = Raise e →
  (∀ t, e ≠ RequestException t) ∧ (∀ t, e ≠ ClientError t).
Proof.
  unfold MaseDBClient._request, try_except, MaseDBClient.session_request.
  rewrite !M_bind_unfold. unfold log_call.
  match goal with
  | |- context [Retry.urlopen ?n ?f ?r env ?w1] =>
      pose proof (urlopen_raises n f r env w1) as Hraise;
      destruct (Retry.urlopen n f r env w1) as [[resp|e'] w2]
  end.
  - unfold lift.
    destruct (MaseDBClient._handle_response resp) as [v|e'] eqn:Hh; simpl.
    + discriminate.
    + destruct e'; simpl; intros H; simplify_eq; try (split; intros; discriminate).
      exfalso. exact (blocking_handle_not_client_error resp _ Hh).
  - destruct (Hraise e' eq_refl) as [t ->]. simpl. unfold raise, lift. simpl.
    intros H; simplify_eq. split; intros; discriminate.
Qed.

(** A failure of the blocking session, once its retries are used up, is the
    [MaseDBError] with the message [Request failed:] and [str(e)]. *)
Lemma blocking_session_failure_wrapped self method endpoint kwargs env w t w' :
  MaseDBClient.session_request (MaseDBClient.session self)
    (built_request (MaseDBClient.api_key self) (MaseDBClient.BASE_URL self)
       method endpoint kwargs) env w = (Raise (RequestException t), w') →
  MaseDBClient._request self method endpoint kwargs env w =
    (Raise (MaseDB (error_of_message ("Request failed: " +:+ exn_str env t))), w').
Proof.
  intros Hs.
  unfold MaseDBClient._request, try_except.
  fold (request_headers (MaseDBClient.api_key self) method (kw_headers kwargs)).
  fold (built_request (MaseDBClient.api_key self) (MaseDBClient.BASE_URL self)
          method endpoint kwargs).
  rewrite M_bind_unfold, Hs. reflexivity.
Qed.

(** The non-blocking client has no handler around the call of the session: a
    failed transmission leaves [_request] as the library raised it. *)
Lemma async_request_leaks_connect_failure self method endpoint kwargs env w d :
  server env (built_request (AsyncMaseDBClient.api_key self) (AsyncMaseDBClient.BASE_URL self)
                method endpoint kwargs :: wire w) = ConnectFailure d →
  (AsyncMaseDBClient._request self method endpoint kwargs env w).1 =
    Raise (ClientError (ConnectError d)).
Proof.
  intros Hs. rewrite async_request_run. simpl. rewrite Hs. reflexivity.
Qed.

(** C1 (the defect): [list_collections] against a server that refuses the
    connection.  The non-blocking client lets the transport exception through
    to the caller as it is; the blocking client, on the same input, raises a
    [MaseDBError] with the message [Request failed: Connection refused]. *)
Theorem C1_async_leaks_transport_failure :
  (invoke_async (AsyncMaseDBClient.__init__ "key" "https://db.example")
     ListCollections refusing fresh).1
    = Raise (ClientError (ConnectError "Connection refused")) ∧
  (invoke_blocking (MaseDBClient.__init__ "key" "https://db.example")
     ListCollections refusing fresh).1
    = Raise (MaseDB (error_of_message "Request failed: Connection refused")).
Proof. split; vm_compute; reflexivity. Qed.

(** ** Response handling *)

Lemma ok_blocking_false r :
  (400 ≤ status_code r < 600)%Z → MaseDBClient.ok r = false.
Proof.
  intros [H1 H2]. unfold MaseDBClient.ok.
  apply Z.leb_le in H1. apply Z.ltb_lt in H2. rewrite H1, H2. reflexivity.
Qed.

Lemma ok_async_false r :
  (400 ≤ status_code r)%Z → AsyncMaseDBClient.ok r = false.
Proof. intros H. unfold AsyncMaseDBClient.ok. apply Z.ltb_ge. exact H. Qed.

Lemma ok_blocking_true r :
  (status_code r < 400)%Z → MaseDBClient.ok r = true.
Proof.
  intros H. unfold MaseDBClient.ok.
  destruct (Z.leb_spec 400 (status_code r)); [lia|reflexivity].
Qed.

Lemma ok_async_true r :
  (status_code r < 400)%Z → AsyncMaseDBClient.ok r = true.
Proof. intros H. unfold AsyncMaseDBClient.ok. apply Z.ltb_lt. exact H. Qed.

(** What both handlers do with a response that is not [ok]. *)
Lemma blocking_handle_failure r :
  MaseDBClient.ok r = false →
  MaseDBClient._handle_response r =
    let error_message :=
      "HTTP " +:+ str_int (status_code r) +:+ ": " +:+ body_or (text r) "No response body" in
    if contains "application/json" (default "" (content_type r)) then
      match json r with
      | Decoded error_data =>
          has_error ← py_in "error" error_data;
          if has_error : bool then
            e1 ← getitem_str error_data "error";
            error_message' ← get e1 "message" (JStr error_message);
            e2 ← getitem_str error_data "error";
            error_code ← get e2 "code" (JStr "UNKNOWN_ERROR");
            e3 ← getitem_str error_data "error";
            error_details ← get e3 "details" (JObj []);
            Raise (MaseDB {| message := error_message';
                             code := Some error_code;
                             details := Some error_details |})
          else Raise (MaseDB (error_of_message error_message))
      | ValueError _ => Raise (MaseDB (error_of_message error_message))
      | UnexpectedMimetype m => Raise (ContentTypeError m)
      end
    else Raise (MaseDB (error_of_message error_message)).
Proof. intros H. unfold MaseDBClient._handle_response. rewrite H. reflexivity. Qed.


(** C3 (counterexample): a 300 response with a JSON content type and a
    well-formed error object in its body is not 2xx, yet neither client
    raises: both return the decoded body. *)
Lemma C3_counterexample_status_300 :
  status_code (error_reply 300) = 300%Z ∧
  contains "application/json" (default "" (content_type (error_reply 300))) = true ∧
  json (error_reply 300) =
    Decoded (JObj [("error", JObj [("code", JStr "NOT_FOUND");
                                   ("message", JStr "no such doc");
                                   ("details", JObj [])])]) ∧
  MaseDBClient._handle_response (error_reply 300) = Ok not_found_body ∧
  AsyncMaseDBClient._handle_response (error_reply 300) = Ok not_found_body.
Proof. repeat split; vm_compute; reflexivity. Qed.

(** C3 (amended): for every response with a status from 400 to 599 whose
    content type contains application/json and whose body decodes to an object
    with a top-level error object holding message, code and details, both
    response handlers raise a [MaseDBError] whose message, code and details are
    those three values. *)
Theorem C3_structured_error r fields err m c d :
  (400 ≤ status_code r < 600)%Z →
  contains "application/json" (default "" (content_type r)) = true →
  json r = Decoded (JObj fields) →
  dict_lookup "error" fields = Some (JObj err) →
  dict_lookup "message" err = Some m →
  dict_lookup "code" err = Some c →
  dict_lookup "details" err = Some d →
  MaseDBClient._handle_response r =
    Raise (MaseDB {| message := m; code := Some c; details := Some d |}) ∧
  AsyncMaseDBClient._handle_response r =
    Raise (MaseDB {| message := m; code := Some c; details := Some d |}).
Proof.
  intros Hst Hct Hjson Herr Hm Hc Hd.
  rewrite <- handlers_agree by lia.
  split; rewrite blocking_handle_failure by (apply ok_blocking_false; exact Hst);
    cbv zeta; rewrite Hct, Hjson; simpl; rewrite Herr; simpl;
    rewrite Hm, Hc, Hd; reflexivity.
Qed.

(** The 404 of the specification's scenario meets the hypotheses of
    [C3_structured_error]. *)
Lemma C3_structured_error_witness :
  MaseDBClient._handle_response (error_reply 404) =
    Raise (MaseDB {| message := JStr "no such doc";
                     code := Some (JStr "NOT_FOUND");
                     details := Some (JObj []) |}) ∧
  AsyncMaseDBClient._handle_response (error_reply 404) =
    Raise (MaseDB {| message := JStr "no such doc";
                     code := Some (JStr "NOT_FOUND");
                     details := Some (JObj []) |}).
Proof.
  apply (C3_structured_error (error_reply 404)
           [("error", JObj [("code", JStr "NOT_FOUND");
                            ("message", JStr "no such doc");
                            ("details", JObj [])])]
           [("code", JStr "NOT_FOUND"); ("message", JStr "no such doc");
            ("details", JObj [])]).
  - simpl. lia.
  - reflexivity.
  - reflexivity.
  - reflexivity.
  - reflexivity.
  - reflexivity.
  - reflexivity.
Defined.

(** C4 (counterexample): 304 Not Modified has no body and no error object; it
    is not 2xx, yet neither client raises: both return the null result, on the
    record of the response and on what either library reads from it. *)
Lemma C4_counterexample_status_304 :
  status_code not_modified = 304%Z ∧
  contains "application/json" (default "" (content_type not_modified)) = false ∧
  MaseDBClient._handle_response not_modified = Ok JNull ∧
  AsyncMaseDBClient._handle_response not_modified = Ok JNull ∧
  MaseDBClient._handle_response (Requests.read loads_sample http_304) = Ok JNull ∧
  AsyncMaseDBClient._handle_response (Aiohttp.read accepts_sample loads_sample http_304)
    = Ok JNull.
Proof. repeat split; vm_compute; reflexivity. Qed.

(** With a content type it accepts and a body that is not blank, [json()] of
    aiohttp is [json.loads] of the stripped body. *)
Lemma aiohttp_json_parsed accepts loads h :
  accepts (lower (default "" (http_content_type h))) = true →
  String.eqb (strip (http_body h)) "" = false →
  Aiohttp.json accepts loads h = of_parsed (loads (strip (http_body h))).
Proof.
  intros Ha Hb. unfold Aiohttp.json. cbv zeta. rewrite Ha, Hb. reflexivity.
Qed.

(** C4 (amended): for every HTTP response with a status from 400 to 599, each
    client handling what its own library reads from it.  The generic error is
    the [MaseDBError] with no code and no details whose message is HTTP, the
    status, a colon and the body, the body replaced by [No response body] when
    it is empty.  When the content type does not contain application/json,
    both clients raise it.  The blocking client raises it as well when
    [json.loads] refuses the body, or decodes it to a value in which the test
    [error in value] is false (an object without that key, an array without
    that string, a string without that text).  The non-blocking client raises
    it when aiohttp accepts the content type, the body is not blank, and
    [json.loads] refuses the stripped body or decodes it to such a value. *)
Theorem C4_generic_error accepts loads h :
  (400 ≤ http_status h < 600)%Z →
  let ctype := default "" (http_content_type h) in
  let shown := if String.eqb (http_body h) "" then "No response body" else http_body h in
  let expected :=
    Raise (MaseDB (error_of_message
      ("HTTP " +:+ str_int (http_status h) +:+ ": " +:+ shown))) in
  (contains "application/json" ctype = false →
   MaseDBClient._handle_response (Requests.read loads h) = expected ∧
   AsyncMaseDBClient._handle_response (Aiohttp.read accepts loads h) = expected) ∧
  ((∃ msg, loads (http_body h) = JSONDecodeError msg) ∨
   (∃ v, loads (http_body h) = Value v ∧ py_in "error" v = Ok false) →
   MaseDBClient._handle_response (Requests.read loads h) = expected) ∧
  (accepts (lower ctype) = true →
   String.eqb (strip (http_body h)) "" = false →
   (∃ msg, loads (strip (http_body h)) = JSONDecodeError msg) ∨
   (∃ v, loads (strip (http_body h)) = Value v ∧ py_in "error" v = Ok false) →
   AsyncMaseDBClient._handle_response (Aiohttp.read accepts loads h) = expected).
Proof.
  intros Hst ctype shown expected.
  set (view := mkResponse (http_status h) (http_content_type h)
                 (http_retry_after h) (Some (http_body h))).
  assert (Hb : ∀ j,
            contains "application/json" ctype = false ∨
            (∃ msg, j = ValueError msg) ∨
            (∃ v, j = Decoded v ∧ py_in "error" v = Ok false) →
            MaseDBClient._handle_response (view j) = expected).
  { intros j Hcase.
    rewrite blocking_handle_failure by (apply ok_blocking_false; exact Hst).
    cbv zeta. simpl. fold ctype. fold shown. fold expected.
    destruct (contains "application/json" ctype); [|reflexivity].
    destruct Hcase as [Hn|[[msg ->]|[v [-> Hin]]]].
    - discriminate.
    - reflexivity.
    - rewrite Hin. reflexivity. }
  assert (Ha : ∀ j, AsyncMaseDBClient._handle_response (view j) =
                    MaseDBClient._handle_response (view j)).
  { intros j. symmetry. apply handlers_agree. simpl. lia. }
  split; [|split].
  - intros Hct. unfold Requests.read, Aiohttp.read. fold view.
    rewrite Ha, !Hb by (left; exact Hct). split; reflexivity.
  - intros Hcase. unfold Requests.read, Requests.json. fold view.
    apply Hb. right.
    destruct Hcase as [[msg Hl]|[v [Hl Hin]]]; rewrite Hl; simpl; eauto.
  - intros Hacc Hbody Hcase. unfold Aiohttp.read. fold view.
    rewrite aiohttp_json_parsed by assumption.
    rewrite Ha. apply Hb. right.
    destruct Hcase as [[msg Hl]|[v [Hl Hin]]]; rewrite Hl; simpl; eauto.
Qed.

(** Three responses that meet the hypotheses of [C4_generic_error]: a 503 in
    plain text for both clients, a 404 that announces JSON and has no body for
    the blocking client, and a 404 whose body is an empty object for the
    non-blocking one. *)
Lemma C4_generic_error_witness :
  (MaseDBClient._handle_response (Requests.read loads_sample http_503_busy) =
     Raise (MaseDB (error_of_message "HTTP 503: busy")) ∧
   AsyncMaseDBClient._handle_response (Aiohttp.read accepts_sample loads_sample http_503_busy) =
     Raise (MaseDB (error_of_message "HTTP 503: busy"))) ∧
  MaseDBClient._handle_response (Requests.read loads_sample http_404_no_body) =
    Raise (MaseDB (error_of_message "HTTP 404: No response body")) ∧
  AsyncMaseDBClient._handle_response
    (Aiohttp.read accepts_sample loads_sample http_404_empty_object) =
    Raise (MaseDB (error_of_message "HTTP 404: {}")).
Proof.
  split; [|split].
  - apply (C4_generic_error accepts_sample loads_sample http_503_busy).
    + simpl. lia.
    + reflexivity.
  - apply (C4_generic_error accepts_sample loads_sample http_404_no_body).
    + simpl. lia.
    + left. eexists. reflexivity.
  - apply (C4_generic_error accepts_sample loads_sample http_404_empty_object).
    + simpl. lia.
    + reflexivity.
    + reflexivity.
    + right. eexists. split; reflexivity.
Defined.

(** The case the handlers miss: a JSON body that is not a container makes the
    membership test raise, and the [TypeError] is what the caller gets. *)
Lemma handle_null_body_raises_type_error :
  MaseDBClient._handle_response null_500 = Raise TypeError ∧
  AsyncMaseDBClient._handle_response null_500 = Raise TypeError.
Proof. split; reflexivity. Qed.

(** A success status is never retried by the session's policy. *)
Lemma no_retry_below_400 total method r :
  (status_code r < 400)%Z →
  Retry.is_retry total [500; 502; 503; 504]%Z method r = false.
Proof.
  intros H. unfold Retry.is_retry, Retry.in_codes, Retry.RETRY_AFTER_STATUS_CODES.
  simpl existsb.
  repeat match goal with
         | |- context [(status_code r =? ?k)%Z] =>
             destruct (Z.eqb_spec (status_code r) k); [lia|]
         end.
  simpl. rewrite !andb_false_r. reflexivity.
Qed.

(** C5: for every 2xx response the server gives to a request of either client:
    when the body is empty the call returns the null result (and so does not
    raise); when the body is not empty, the content type contains
    application/json and the body decodes to [v], the call returns [v]
    itself. *)
Theorem C5_success_response k b method endpoint kwargs env w r :
  let req := built_request k (rstrip "/" b) method endpoint kwargs in
  server env (req :: wire w) = Reply r →
  (200 ≤ status_code r < 300)%Z →
  (body_empty (text r) = true →
   (MaseDBClient._request (MaseDBClient.__init__ k b) method endpoint kwargs env w).1
     = Ok JNull ∧
   (AsyncMaseDBClient._request (AsyncMaseDBClient.__init__ k b) method endpoint kwargs env w).1
     = Ok JNull) ∧
  (∀ v, body_empty (text r) = false →
        contains "application/json" (default "" (content_type r)) = true →
        json r = Decoded v →
   (MaseDBClient._request (MaseDBClient.__init__ k b) method endpoint kwargs env w).1
     = Ok v ∧
   (AsyncMaseDBClient._request (AsyncMaseDBClient.__init__ k b) method endpoint kwargs env w).1
     = Ok v).
Proof.
  intros req Hs Hst.
  assert (Hb : (MaseDBClient._request (MaseDBClient.__init__ k b) method endpoint kwargs env w).1
               = MaseDBClient._handle_response r).
  { rewrite (blocking_request_delivered _ _ _ _ env w r); [reflexivity|exact Hs|].
    apply no_retry_below_400. lia. }
  assert (Ha : (AsyncMaseDBClient._request (AsyncMaseDBClient.__init__ k b) method endpoint kwargs env w).1
               = AsyncMaseDBClient._handle_response r).
  { rewrite async_request_run. simpl.
    fold req. rewrite Hs. reflexivity. }
  rewrite Hb, Ha. rewrite <- handlers_agree by lia.
  unfold MaseDBClient._handle_response.
  rewrite ok_blocking_true by lia.
  split.
  - intros He. rewrite He. split; reflexivity.
  - intros v He Hct Hv. rewrite He, Hct, Hv. split; reflexivity.
Qed.

(** A 200 with a JSON body, answered to a POST, meets the hypotheses of
    [C5_success_response]. *)
Lemma C5_success_response_witness :
  (MaseDBClient._request (MaseDBClient.__init__ "key" "https://db.example/")
     "POST" "/api/collections" no_kwargs (always reply_200) fresh).1 = Ok ok_body ∧
  (AsyncMaseDBClient._request (AsyncMaseDBClient.__init__ "key" "https://db.example/")
     "POST" "/api/collections" no_kwargs (always reply_200) fresh).1 = Ok ok_body.
Proof.
  apply (C5_success_response "key" "https://db.example/" "POST" "/api/collections"
           no_kwargs (always reply_200) fresh reply_200).
  - reflexivity.
  - simpl. lia.
  - reflexivity.
  - reflexivity.
  - reflexivity.
Defined.

(** ** The one request of a public method *)

(** A call of the blocking client is one [session.request] call with the
    request of the catalog, which the retry policy of the session has it
    transmit between one and four times. *)
Lemma invoke_blocking_issues k b c env w :
  ∃ n, (n ≤ 3)%nat ∧
       (invoke_blocking (MaseDBClient.__init__ k b) c env w).2
         = sent (expected_request k (rstrip "/" b) c) (S n) w.
Proof.
  rewrite invoke_blocking_run. simpl snd.
  destruct (blocking_request_trace (MaseDBClient.__init__ k b)
              (catalog c).1.1 (catalog c).1.2
              {| kw_headers := None; kw_json := (catalog c).2 |} env w)
    as (n & Hn & Hrun).
  exists n. split; [exact Hn|].
  simpl in Hrun. rewrite built_is_expected in Hrun. exact Hrun.
Qed.

(** A call of the non-blocking client is one [session.request] call with the
    request of the catalog, and one exchange of its session. *)
Lemma invoke_async_issues k b c env w :
  (invoke_async (AsyncMaseDBClient.__init__ k b) c env w).2
    = sent (expected_request k (rstrip "/" b) c) 1 w.
Proof.
  rewrite invoke_async_run. simpl snd.
  rewrite async_request_run. simpl.
  rewrite built_is_expected. reflexivity.
Qed.

(** C6 (counterexample): [find_one] against a server that answers 503 once
    and then 200 with a one-element list.  The session of the blocking client
    retries the GET: the one call of [session.request] makes two round trips,
    the first answered 503 and the second 200, and [find_one] returns the
    element. *)
Lemma C6_counterexample_retried_find_one :
  (MaseDBClient.find_one (MaseDBClient.__init__ "key" "https://db.example")
     "users" JNull busy_then_ok fresh).1 = Ok (JObj [("name", JStr "users")]) ∧
  calls (MaseDBClient.find_one (MaseDBClient.__init__ "key" "https://db.example")
           "users" JNull busy_then_ok fresh).2
    = [expected_request "key" "https://db.example" (ListDocuments "users" JNull)] ∧
  wire (MaseDBClient.find_one (MaseDBClient.__init__ "key" "https://db.example")
          "users" JNull busy_then_ok fresh).2
    = [expected_request "key" "https://db.example" (ListDocuments "users" JNull);
       expected_request "key" "https://db.example" (ListDocuments "users" JNull)] ∧
  server busy_then_ok
    [expected_request "key" "https://db.example" (ListDocuments "users" JNull)]
    = Reply busy_503 ∧
  server busy_then_ok
    [expected_request "key" "https://db.example" (ListDocuments "users" JNull);
     expected_request "key" "https://db.example" (ListDocuments "users" JNull)]
    = Reply reply_list.
Proof. repeat split; vm_compute; reflexivity. Qed.

(** C6 (amended): in both clients [find_one coll q] does on the network what
    [list_documents coll q] does and nothing more: the world after it is the
    world after [list_documents], and it has made exactly one
    [session.request] call, with the request of [list_documents]; how many
    times the HTTP library transmits that request is the library's matter.
    When [list_documents] returns a list, [find_one] returns its first
    element, or the null result when the list is empty; a null result of
    [list_documents] gives the null result as well. *)
Theorem C6_find_one k b coll q env w :
  let sc := MaseDBClient.__init__ k b in
  let ac := AsyncMaseDBClient.__init__ k b in
  let req := expected_request k (rstrip "/" b) (ListDocuments coll q) in
  ((MaseDBClient.find_one sc coll q env w).2 = (MaseDBClient.list_documents sc coll q env w).2 ∧
   calls (MaseDBClient.find_one sc coll q env w).2 = req :: calls w ∧
   (∀ items, (MaseDBClient.list_documents sc coll q env w).1 = Ok (JArr items) →
      (MaseDBClient.find_one sc coll q env w).1
        = Ok (match items with [] => JNull | first :: _ => first end)) ∧
   ((MaseDBClient.list_documents sc coll q env w).1 = Ok JNull →
      (MaseDBClient.find_one sc coll q env w).1 = Ok JNull)) ∧
  ((AsyncMaseDBClient.find_one ac coll q env w).2 = (AsyncMaseDBClient.list_documents ac coll q env w).2 ∧
   calls (AsyncMaseDBClient.find_one ac coll q env w).2 = req :: calls w ∧
   (∀ items, (AsyncMaseDBClient.list_documents ac coll q env w).1 = Ok (JArr items) →
      (AsyncMaseDBClient.find_one ac coll q env w).1
        = Ok (match items with [] => JNull | first :: _ => first end)) ∧
   ((AsyncMaseDBClient.list_documents ac coll q env w).1 = Ok JNull →
      (AsyncMaseDBClient.find_one ac coll q env w).1 = Ok JNull)).
Proof.
  intros sc ac req. split.
  - destruct (invoke_blocking_issues k b (FindOne coll q) env w) as (n & Hn & Hrun).
    change (invoke_blocking (MaseDBClient.__init__ k b) (FindOne coll q) env w)
      with (MaseDBClient.find_one sc coll q env w) in Hrun.
    change (expected_request k (rstrip "/" b) (FindOne coll q)) with req in Hrun.
    assert (Hdef : MaseDBClient.find_one sc coll q env w =
              match MaseDBClient.list_documents sc coll q env w with
              | (Ok results, w') =>
                  (if truthy results then getitem_0 results else Ok JNull, w')
              | (Raise e, w') => (Raise e, w')
              end).
    { unfold MaseDBClient.find_one. rewrite M_bind_unfold.
      destruct (MaseDBClient.list_documents sc coll q env w) as [[v|e] w']; [|reflexivity].
      destruct (truthy v); reflexivity. }
    repeat split.
    + rewrite Hdef. destruct (MaseDBClient.list_documents sc coll q env w) as [[v|e] w'];
        reflexivity.
    + rewrite Hrun. reflexivity.
    + intros items Hitems. rewrite Hdef.
      destruct (MaseDBClient.list_documents sc coll q env w) as [[v|e] w'];
        simpl in Hitems; simplify_eq.
      destruct items; reflexivity.
    + intros Hnull. rewrite Hdef.
      destruct (MaseDBClient.list_documents sc coll q env w) as [[v|e] w'];
        simpl in Hnull; simplify_eq. reflexivity.
  - pose proof (invoke_async_issues k b (FindOne coll q) env w) as Hrun.
    change (invoke_async (AsyncMaseDBClient.__init__ k b) (FindOne coll q) env w)
      with (AsyncMaseDBClient.find_one ac coll q env w) in Hrun.
    change (expected_request k (rstrip "/" b) (FindOne coll q)) with req in Hrun.
    assert (Hdef : AsyncMaseDBClient.find_one ac coll q env w =
              match AsyncMaseDBClient.list_documents ac coll q env w with
              | (Ok results, w') =>
                  (if truthy results then getitem_0 results else Ok JNull, w')
              | (Raise e, w') => (Raise e, w')
              end).
    { unfold AsyncMaseDBClient.find_one. rewrite M_bind_unfold.
      destruct (AsyncMaseDBClient.list_documents ac coll q env w) as [[v|e] w']; [|reflexivity].
      destruct (truthy v); reflexivity. }
    repeat split.
    + rewrite Hdef. destruct (AsyncMaseDBClient.list_documents ac coll q env w) as [[v|e] w'];
        reflexivity.
    + rewrite Hrun. reflexivity.
    + intros items Hitems. rewrite Hdef.
      destruct (AsyncMaseDBClient.list_documents ac coll q env w) as [[v|e] w'];
        simpl in Hitems; simplify_eq.
      destruct items; reflexivity.
    + intros Hnull. rewrite Hdef.
      destruct (AsyncMaseDBClient.list_documents ac coll q env w) as [[v|e] w'];
        simpl in Hnull; simplify_eq. reflexivity.
Qed.

(** Against a server that answers with a one-element list, [find_one] returns
    that element. *)
Lemma C6_find_one_witness :
  (MaseDBClient.find_one (MaseDBClient.__init__ "key" "https://db.example")
     "users" JNull (always reply_list) fresh).1 = Ok (JObj [("name", JStr "users")]) ∧
  (AsyncMaseDBClient.find_one (AsyncMaseDBClient.__init__ "key" "https://db.example")
     "users" JNull (always reply_list) fresh).1 = Ok (JObj [("name", JStr "users")]).
Proof.
  pose proof (C6_find_one "key" "https://db.example" "users" JNull
                (always reply_list) fresh) as [Hb Ha].
  split.
  - destruct Hb as (_ & _ & Hfirst & _).
    apply (Hfirst [JObj [("name", JStr "users")]]).
    vm_compute. reflexivity.
  - destruct Ha as (_ & _ & Hfirst & _).
    apply (Hfirst [JObj [("name", JStr "users")]]).
    vm_compute. reflexivity.
Defined.

(** C7: in both clients [insert_one] is [create_document]: for the same
    arguments the two runs are equal (same result, same trace), and the one
    request they issue is a POST to the base URL followed by /api/ and the
    collection name, with the document as its body. *)
Theorem C7_insert_one_create_document k b coll doc env w :
  let sc := MaseDBClient.__init__ k b in
  let ac := AsyncMaseDBClient.__init__ k b in
  let req := expected_request k (rstrip "/" b) (CreateDocument coll doc) in
  MaseDBClient.insert_one sc coll doc env w = MaseDBClient.create_document sc coll doc env w ∧
  AsyncMaseDBClient.insert_one ac coll doc env w = AsyncMaseDBClient.create_document ac coll doc env w ∧
  calls (MaseDBClient.insert_one sc coll doc env w).2 = req :: calls w ∧
  calls (MaseDBClient.create_document sc coll doc env w).2 = req :: calls w ∧
  calls (AsyncMaseDBClient.insert_one ac coll doc env w).2 = req :: calls w ∧
  calls (AsyncMaseDBClient.create_document ac coll doc env w).2 = req :: calls w ∧
  req_method req = "POST" ∧
  req_url req = rstrip "/" b +:+ "/api/" +:+ coll ∧
  req_json req = Some doc.
Proof.
  intros sc ac req.
  destruct (invoke_blocking_issues k b (CreateDocument coll doc) env w) as (n & _ & Hb).
  pose proof (invoke_async_issues k b (CreateDocument coll doc) env w) as Ha.
  simpl invoke_blocking in Hb. simpl invoke_async in Ha.
  fold sc in Hb. fold ac in Ha. fold req in Hb, Ha.
  unfold MaseDBClient.insert_one, AsyncMaseDBClient.insert_one.
  rewrite Hb, Ha.
  repeat split; reflexivity.
Qed.

(** ** Header policy *)

Lemma request_headers_content_type api_key method given :
  request_headers api_key method given !! "Content-Type" =
    if in_list method ["POST"; "PUT"] then Some "application/json" else None.
Proof.
  unfold request_headers.
  destruct (in_list method ["POST"; "PUT"]).
  - apply lookup_insert_eq.
  - apply lookup_delete_eq.
Qed.

Lemma request_headers_api_key api_key method given :
  request_headers api_key method given !! "X-API-Key" = Some api_key.
Proof.
  unfold request_headers.
  destruct (in_list method ["POST"; "PUT"]).
  - rewrite lookup_insert_ne by discriminate.
    rewrite lookup_insert_ne by discriminate.
    apply lookup_insert_eq.
  - rewrite lookup_delete_ne by discriminate.
    rewrite lookup_insert_ne by discriminate.
    apply lookup_insert_eq.
Qed.

Lemma request_headers_accept api_key method given :
  request_headers api_key method given !! "Accept" = Some "application/json".
Proof.
  unfold request_headers.
  destruct (in_list method ["POST"; "PUT"]).
  - rewrite lookup_insert_ne by discriminate.
    apply lookup_insert_eq.
  - rewrite lookup_delete_ne by discriminate.
    apply lookup_insert_eq.
Qed.

Lemma built_request_policy api_key BASE_URL method endpoint kwargs :
  content_type_policy (built_request api_key BASE_URL method endpoint kwargs).
Proof.
  unfold content_type_policy, built_request. simpl.
  rewrite request_headers_content_type.
  split; intros [-> | ->]; reflexivity.
Qed.

Lemma built_request_authenticated api_key BASE_URL method endpoint kwargs :
  authenticated api_key (built_request api_key BASE_URL method endpoint kwargs).
Proof.
  unfold authenticated, built_request. simpl.
  split; [apply request_headers_api_key | apply request_headers_accept].
Qed.

Lemma blocking_request_issues self method endpoint kwargs env w :
  issues (MaseDBClient._request self method endpoint kwargs env w) w
    (built_request (MaseDBClient.api_key self) (MaseDBClient.BASE_URL self)
       method endpoint kwargs).
Proof.
  destruct (blocking_request_trace self method endpoint kwargs env w) as (n & _ & H).
  exists n. exact H.
Qed.

Lemma async_request_issues self method endpoint kwargs env w :
  issues (AsyncMaseDBClient._request self method endpoint kwargs env w) w
    (built_request (AsyncMaseDBClient.api_key self) (AsyncMaseDBClient.BASE_URL self)
       method endpoint kwargs).
Proof.
  exists 0%nat. rewrite async_request_run. reflexivity.
Qed.

Lemma invoke_blocking_built self c env w :
  issues (invoke_blocking self c env w) w
    (built_request (MaseDBClient.api_key self) (MaseDBClient.BASE_URL self)
       (catalog c).1.1 (catalog c).1.2 {| kw_headers := None; kw_json := (catalog c).2 |}).
Proof.
  unfold issues. rewrite invoke_blocking_run. simpl snd.
  apply blocking_request_issues.
Qed.

Lemma invoke_async_built self c env w :
  issues (invoke_async self c env w) w
    (built_request (AsyncMaseDBClient.api_key self) (AsyncMaseDBClient.BASE_URL self)
       (catalog c).1.1 (catalog c).1.2 {| kw_headers := None; kw_json := (catalog c).2 |}).
Proof.
  unfold issues. rewrite invoke_async_run. simpl snd.
  apply async_request_issues.
Qed.

(** A dict none of whose names is [name] in another case does not hold the
    header. *)
Lemma has_header_false name (h : gmap string string) :
  (∀ k v, h !! k = Some v → String.eqb (lower k) (lower name) = false) →
  has_header name h = false.
Proof.
  intros H. unfold has_header. apply not_true_is_false. intros Hex.
  apply existsb_exists in Hex as [[k v] [Hin Heq]].
  apply list_elem_of_In, elem_of_map_to_list in Hin.
  simpl in Heq. rewrite (H k v Hin) in Heq. discriminate.
Qed.

(** The headers dict the clients build for a method other than POST and PUT
    holds no Content-Type, under any spelling. *)
Lemma spec_headers_no_content_type k method :
  in_list method ["POST"; "PUT"] = false →
  spec_headers k method !! "Content-Type" = None ∧
  has_header "Content-Type" (spec_headers k method) = false.
Proof.
  intros Hm. unfold spec_headers. rewrite Hm. split.
  - rewrite !lookup_insert_ne by discriminate. apply lookup_empty.
  - apply has_header_false. intros name v Hl.
    apply lookup_insert_Some in Hl as [[<- _]|[_ Hl]]; [reflexivity|].
    apply lookup_insert_Some in Hl as [[<- _]|[_ Hl]]; [reflexivity|].
    rewrite lookup_empty in Hl. discriminate.
Qed.

(** [query or {}] is never [None]: the keyword [json] always has a value. *)
Lemma or_is_a_body q : or_ q (JObj []) ≠ JNull.
Proof. unfold or_. destruct q; simpl; try discriminate; case_match; discriminate. Qed.

(** A request with a JSON body and no Content-Type of its own goes out with
    the one the library adds. *)
Lemma wire_headers_json_body req v :
  req_json req = Some v → v ≠ JNull →
  has_header "Content-Type" (req_headers req) = false →
  wire_headers req !! "Content-Type" = Some "application/json".
Proof.
  intros Hj Hv Hh. unfold wire_headers. rewrite Hj, Hh.
  destruct v; try apply lookup_insert_eq. contradiction.
Qed.

(** C2 (the defect): [list_documents] and [get_document], in both clients and
    for every collection, document id and query.  Each makes one
    [session.request] call with a GET request whose [json] keyword is the
    query or an empty object.  [_request] has removed Content-Type from the
    headers dict of that call; but because the call has a [json] value, the
    library sends the request with [Content-Type: application/json].  The GET
    requests that carry a query body do carry the header. *)
Theorem C2_get_with_body_carries_content_type k b coll id q env w :
  let sc := MaseDBClient.__init__ k b in
  let ac := AsyncMaseDBClient.__init__ k b in
  let listing := expected_request k (rstrip "/" b) (ListDocuments coll q) in
  let fetching := expected_request k (rstrip "/" b) (GetDocument coll id q) in
  (calls (MaseDBClient.list_documents sc coll q env w).2 = listing :: calls w ∧
   calls (AsyncMaseDBClient.list_documents ac coll q env w).2 = listing :: calls w ∧
   calls (MaseDBClient.get_document sc coll id q env w).2 = fetching :: calls w ∧
   calls (AsyncMaseDBClient.get_document ac coll id q env w).2 = fetching :: calls w) ∧
  (req_method listing = "GET" ∧
   req_json listing = Some (or_ q (JObj [])) ∧
   req_headers listing !! "Content-Type" = None ∧
   wire_headers listing !! "Content-Type" = Some "application/json") ∧
  (req_method fetching = "GET" ∧
   req_json fetching = Some (or_ q (JObj [])) ∧
   req_headers fetching !! "Content-Type" = None ∧
   wire_headers fetching !! "Content-Type" = Some "application/json").
Proof.
  intros sc ac listing fetching.
  destruct (spec_headers_no_content_type k "GET" eq_refl) as [Hnone Hhas].
  split; [|split].
  - destruct (invoke_blocking_issues k b (ListDocuments coll q) env w) as (n1 & _ & Hb1).
    destruct (invoke_blocking_issues k b (GetDocument coll id q) env w) as (n2 & _ & Hb2).
    pose proof (invoke_async_issues k b (ListDocuments coll q) env w) as Ha1.
    pose proof (invoke_async_issues k b (GetDocument coll id q) env w) as Ha2.
    simpl invoke_blocking in Hb1, Hb2. simpl invoke_async in Ha1, Ha2.
    fold sc in Hb1, Hb2. fold ac in Ha1, Ha2.
    rewrite Hb1, Hb2, Ha1, Ha2. repeat split; reflexivity.
  - split; [reflexivity|]. split; [reflexivity|]. split; [exact Hnone|].
    apply (wire_headers_json_body listing (or_ q (JObj [])));
      [reflexivity | apply or_is_a_body | exact Hhas].
  - split; [reflexivity|]. split; [reflexivity|]. split; [exact Hnone|].
    apply (wire_headers_json_body fetching (or_ q (JObj [])));
      [reflexivity | apply or_is_a_body | exact Hhas].
Qed.

(** The removal of Content-Type on a GET compares names as written: a
    Content-Type that the caller of [_request] spelled in lower case stays in
    the headers dict, and it is a Content-Type for the library. *)
Example lower_case_content_type_survives :
  let given : gmap string string := <["content-type" := "text/plain"]> ∅ in
  let h := request_headers "key" "GET" (Some given) in
  h !! "Content-Type" = None ∧ h !! "content-type" = Some "text/plain" ∧
  has_header "Content-Type" h = true.
Proof. repeat split; vm_compute; reflexivity. Qed.

(** C9: every run of [_request] of a client constructed with the key
    [api_key], in either variant and whatever headers the caller passes, makes
    one [session.request] call whose request carries X-API-Key with exactly
    that key and Accept with application/json; so does every public method.
    The key the client holds is the one given at construction. *)
Theorem C9_api_key_on_every_request (api_key base_url : string) (env : Env) (w : World) :
  let sc := MaseDBClient.__init__ api_key base_url in
  let ac := AsyncMaseDBClient.__init__ api_key base_url in
  MaseDBClient.api_key sc = api_key ∧
  AsyncMaseDBClient.api_key ac = api_key ∧
  (∀ method endpoint kwargs,
     (∃ req, issues (MaseDBClient._request sc method endpoint kwargs env w) w req ∧
             authenticated api_key req) ∧
     (∃ req, issues (AsyncMaseDBClient._request ac method endpoint kwargs env w) w req ∧
             authenticated api_key req)) ∧
  (∀ c,
     (∃ req, issues (invoke_blocking sc c env w) w req ∧ authenticated api_key req) ∧
     (∃ req, issues (invoke_async ac c env w) w req ∧ authenticated api_key req)).
Proof.
  intros sc ac. split; [reflexivity|]. split; [reflexivity|]. split.
  - intros method endpoint kwargs. split; eexists; split.
    + apply blocking_request_issues.
    + apply built_request_authenticated.
    + apply async_request_issues.
    + apply built_request_authenticated.
  - intros c. split; eexists; split.
    + apply invoke_blocking_built.
    + apply built_request_authenticated.
    + apply invoke_async_built.
    + apply built_request_authenticated.
Qed.

(** A caller's own X-API-Key, Accept and Content-Type do not survive on a GET. *)
Example caller_headers_overridden :
  let given : gmap string string :=
    <["X-API-Key" := "other"]> (<["Accept" := "text/html"]>
      (<["Content-Type" := "text/plain"]> ∅)) in
  let h := request_headers "key" "GET" (Some given) in
  h !! "X-API-Key" = Some "key" ∧ h !! "Accept" = Some "application/json" ∧
  h !! "Content-Type" = None.
Proof. repeat split; vm_compute; reflexivity. Qed.

(** One more call keeps the trace well formed, and so does any sequence of
    calls, against any server. *)
Lemma sent_well_formed api_key req n w :
  authenticated api_key req → content_type_policy req →
  well_formed api_key w → well_formed api_key (sent req n w).
Proof.
  intros Ha Hp Hc. unfold well_formed. simpl.
  constructor; [split; assumption|exact Hc].
Qed.

Lemma blocking_trace_well_formed k b cs env w :
  well_formed k w →
  well_formed k (perform (invoke_blocking (MaseDBClient.__init__ k b)) cs env w).
Proof.
  revert w. induction cs as [|c cs IH]; intros w Hw; simpl; [exact Hw|].
  apply IH.
  destruct (invoke_blocking_built (MaseDBClient.__init__ k b) c env w) as [n ->].
  apply sent_well_formed;
    [apply built_request_authenticated | apply built_request_policy | exact Hw].
Qed.

Lemma async_trace_well_formed k b cs env w :
  well_formed k w →
  well_formed k (perform (invoke_async (AsyncMaseDBClient.__init__ k b)) cs env w).
Proof.
  revert w. induction cs as [|c cs IH]; intros w Hw; simpl; [exact Hw|].
  apply IH.
  destruct (invoke_async_built (AsyncMaseDBClient.__init__ k b) c env w) as [n ->].
  apply sent_well_formed;
    [apply built_request_authenticated | apply built_request_policy | exact Hw].
Qed.

(** ** The two variants side by side *)





(** ** The base URL *)

Lemma rstrip_slashes_only n : rstrip "/" (str_repeat "/" n) = EmptyString.
Proof.
  induction n as [|n IH]; [reflexivity|].
  change (str_repeat "/" (S n)) with (String "/"%char (str_repeat "/" n)).
  simpl. rewrite IH. reflexivity.
Qed.

Lemma rstrip_app_slashes b n :
  rstrip "/" (b +:+ str_repeat "/" n) = rstrip "/" b.
Proof.
  induction b as [|c b IH].
  - apply rstrip_slashes_only.
  - change (String c b +:+ str_repeat "/" n)
      with (String c (b +:+ str_repeat "/" n)).
    simpl. rewrite IH. reflexivity.
Qed.

Lemma rstrip_not_endswith s : endswith_char (rstrip "/" s) "/" = false.
Proof.
  induction s as [|c s IH]; [reflexivity|].
  simpl. destruct (rstrip "/" s) as [|a r] eqn:Hr.
  - unfold in_chars. simpl.
    destruct (Ascii.eqb c "/") eqn:Hc; simpl; [reflexivity|].
    exact Hc.
  - exact IH.
Qed.

Lemma catalog_path_under_api c : ∃ rest, (catalog c).1.2 = "/api" +:+ rest.
Proof. destruct c; simpl; eexists; reflexivity. Qed.

(** C10: a client constructed with [base_url] followed by any number of
    slashes is the client constructed with [base_url]: the stored base URL is
    the same, so every method call runs the same and sends the same request,
    in both variants.  The stored base URL never ends with a slash and every
    URL is that base URL followed by a path that starts with /api, so no
    double slash arises where the two meet. *)
Theorem C10_trailing_slashes k base_url n c :
  let padded := base_url +:+ str_repeat "/" n in
  MaseDBClient.BASE_URL (MaseDBClient.__init__ k padded)
    = MaseDBClient.BASE_URL (MaseDBClient.__init__ k base_url) ∧
  AsyncMaseDBClient.BASE_URL (AsyncMaseDBClient.__init__ k padded)
    = AsyncMaseDBClient.BASE_URL (AsyncMaseDBClient.__init__ k base_url) ∧
  invoke_blocking (MaseDBClient.__init__ k padded) c
    = invoke_blocking (MaseDBClient.__init__ k base_url) c ∧
  invoke_async (AsyncMaseDBClient.__init__ k padded) c
    = invoke_async (AsyncMaseDBClient.__init__ k base_url) c ∧
  endswith_char (MaseDBClient.BASE_URL (MaseDBClient.__init__ k padded)) "/" = false ∧
  endswith_char (AsyncMaseDBClient.BASE_URL (AsyncMaseDBClient.__init__ k padded)) "/" = false ∧
  (∀ env w, ∃ req rest,
     calls (invoke_blocking (MaseDBClient.__init__ k padded) c env w).2 = req :: calls w ∧
     calls (invoke_async (AsyncMaseDBClient.__init__ k padded) c env w).2 = req :: calls w ∧
     req_url req = rstrip "/" base_url +:+ "/api" +:+ rest).
Proof.
  intros padded.
  assert (Hb : MaseDBClient.__init__ k padded = MaseDBClient.__init__ k base_url).
  { unfold MaseDBClient.__init__, padded. rewrite rstrip_app_slashes. reflexivity. }
  assert (Ha : AsyncMaseDBClient.__init__ k padded = AsyncMaseDBClient.__init__ k base_url).
  { unfold AsyncMaseDBClient.__init__, padded. rewrite rstrip_app_slashes. reflexivity. }
  rewrite Hb, Ha.
  repeat split; try apply rstrip_not_endswith.
  intros env w.
  destruct (invoke_blocking_issues k base_url c env w) as (m & _ & Hrb).
  pose proof (invoke_async_issues k base_url c env w) as Hra.
  destruct (catalog_path_under_api c) as [rest Hrest].
  exists (expected_request k (rstrip "/" base_url) c), rest.
  rewrite Hrb, Hra.
  split; [reflexivity|]. split; [reflexivity|].
  unfold expected_request. destruct (catalog c) as [[meth path] body].
  simpl in Hrest. simpl. rewrite Hrest. reflexivity.
Qed.

(** ** The end-to-end scenarios of the specification *)

(** [create_collection("users", "desc")] is a POST to /api/collections with
    the name and the description as body, and the reply of the server is
    returned as it is. *)
Example scenario_create_collection :
  let run := invoke_blocking (MaseDBClient.__init__ "key" "https://db.example")
               (CreateCollection "users" "desc") (always reply_200) fresh in
  run.1 = Ok ok_body ∧
  map (λ r, (req_method r, req_url r, req_json r)) (calls run.2) =
    [("POST", "https://db.example/api/collections",
      Some (JObj [("name", JStr "users"); ("description", JStr "desc")]))].
Proof. split; vm_compute; reflexivity. Qed.

(** [update_document("users", "123", {$inc: {visits: 1}})] is a PUT to
    /api/users/123 with the update as body. *)
Example scenario_update_document :
  let update := JObj [("$inc", JObj [("visits", JInt 1)])] in
  let run := invoke_async (AsyncMaseDBClient.__init__ "key" "https://db.example")
               (UpdateDocument "users" "123" update) (always reply_200) fresh in
  map (λ r, (req_method r, req_url r, req_json r)) (calls run.2) =
    [("PUT", "https://db.example/api/users/123", Some update)].
Proof. vm_compute; reflexivity. Qed.

(** A 404 with a NOT_FOUND error object raises an error with that code and the
    message of the body, in both clients. *)
Example scenario_not_found :
  let expected :=
    Raise (MaseDB {| message := JStr "no such doc";
                     code := Some (JStr "NOT_FOUND");
                     details := Some (JObj []) |}) in
  (invoke_blocking (MaseDBClient.__init__ "key" "https://db.example")
     (GetDocument "users" "123" JNull) (always (error_reply 404)) fresh).1 = expected ∧
  (invoke_async (AsyncMaseDBClient.__init__ "key" "https://db.example")
     (GetDocument "users" "123" JNull) (always (error_reply 404)) fresh).1 = expected.
Proof. split; vm_compute; reflexivity. Qed.

(** * Further properties of the clients *)

(** ** Response handling, case by case *)

Lemma blocking_handle_success r :
  MaseDBClient.ok r = true →
  MaseDBClient._handle_response r =
    if body_empty (text r) then Ok JNull
    else if negb (contains "application/json" (default "" (content_type r))) then
      Raise (MaseDB (error_of_message
        ("Invalid response format: Expected JSON, got " +:+ default "" (content_type r))))
    else
      match json r with
      | Decoded v => Ok v
      | ValueError e =>
          Raise (MaseDB (error_of_message ("Invalid JSON response: " +:+ e)))
      | UnexpectedMimetype m => Raise (ContentTypeError m)
      end.
Proof. intros H. unfold MaseDBClient._handle_response. rewrite H. reflexivity. Qed.

Lemma async_handle_success r :
  AsyncMaseDBClient.ok r = true →
  AsyncMaseDBClient._handle_response r =
    if body_empty (text r) then Ok JNull
    else if negb (contains "application/json" (default "" (content_type r))) then
      Raise (MaseDB (error_of_message
        ("Invalid response format: Expected JSON, got " +:+ default "" (content_type r))))
    else
      match json r with
      | Decoded v => Ok v
      | ValueError e =>
          Raise (MaseDB (error_of_message ("Invalid JSON response: " +:+ e)))
      | UnexpectedMimetype m => Raise (ContentTypeError m)
      end.
Proof. intros H. unfold AsyncMaseDBClient._handle_response. rewrite H. reflexivity. Qed.





(** X2: a response with a status below 400 and a body that is not empty is a
    protocol error when it is not JSON: with a content type that does not
    contain application/json both handlers raise the [MaseDBError] with the
    exact content type in its message, and with a JSON content type and a body
    that does not parse they raise the one with the reason of the parser. *)
Theorem success_status_with_unusable_body r :
  (status_code r < 400)%Z →
  body_empty (text r) = false →
  (contains "application/json" (default "" (content_type r)) = false →
   MaseDBClient._handle_response r =
     Raise (MaseDB (error_of_message
       ("Invalid response format: Expected JSON, got " +:+ default "" (content_type r)))) ∧
   AsyncMaseDBClient._handle_response r =
     Raise (MaseDB (error_of_message
       ("Invalid response format: Expected JSON, got " +:+ default "" (content_type r))))) ∧
  (∀ reason,
     contains "application/json" (default "" (content_type r)) = true →
     json r = ValueError reason →
     MaseDBClient._handle_response r =
       Raise (MaseDB (error_of_message ("Invalid JSON response: " +:+ reason))) ∧
     AsyncMaseDBClient._handle_response r =
       Raise (MaseDB (error_of_message ("Invalid JSON response: " +:+ reason)))).
Proof.
  intros Hst Hbody.
  rewrite <- handlers_agree by lia.
  rewrite blocking_handle_success by (apply ok_blocking_true; exact Hst).
  rewrite Hbody. split.
  - intros Hct. rewrite Hct. split; reflexivity.
  - intros reason Hct Hj. rewrite Hct, Hj. split; reflexivity.
Qed.

(** An HTML page with status 200 is refused with its content type named. *)
Lemma success_status_with_unusable_body_witness :
  MaseDBClient._handle_response html_200 =
    Raise (MaseDB (error_of_message "Invalid response format: Expected JSON, got text/html")) ∧
  AsyncMaseDBClient._handle_response html_200 =
    Raise (MaseDB (error_of_message "Invalid response format: Expected JSON, got text/html")).
Proof.
  destruct (success_status_with_unusable_body html_200) as [H _].
  - simpl. lia.
  - reflexivity.
  - apply H. reflexivity.
Defined.

(** X3: the defaults of a structured error.  For a status from 400 to 599, a
    JSON content type and a body that decodes to an object whose [error]
    member is an object, both handlers raise a [MaseDBError] whose message is
    the [message] member or, without one, the generic HTTP line; whose code is
    the [code] member or else UNKNOWN_ERROR; and whose details are the
    [details] member or else an empty object. *)
Theorem error_object_defaults r fields err :
  (400 ≤ status_code r < 600)%Z →
  contains "application/json" (default "" (content_type r)) = true →
  json r = Decoded (JObj fields) →
  dict_lookup "error" fields = Some (JObj err) →
  let generic :=
    JStr ("HTTP " +:+ str_int (status_code r) +:+ ": " +:+
          body_or (text r) "No response body") in
  let raised :=
    Raise (MaseDB {| message := default generic (dict_lookup "message" err);
                     code := Some (default (JStr "UNKNOWN_ERROR") (dict_lookup "code" err));
                     details := Some (default (JObj []) (dict_lookup "details" err)) |}) in
  MaseDBClient._handle_response r = raised ∧
  AsyncMaseDBClient._handle_response r = raised.
Proof.
  intros Hst Hct Hj Herr generic raised.
  rewrite <- handlers_agree by lia.
  assert (H : MaseDBClient._handle_response r = raised).
  { rewrite blocking_handle_failure by (apply ok_blocking_false; exact Hst).
    cbv zeta. rewrite Hct, Hj. simpl. rewrite Herr. simpl.
    unfold raised, generic.
    destruct (dict_lookup "message" err), (dict_lookup "code" err),
             (dict_lookup "details" err); reflexivity. }
  split; exact H.
Qed.

(** An error object with nothing but a code gets the generic message and
    empty details. *)
Lemma error_object_defaults_witness :
  MaseDBClient._handle_response bare_error_404 =
    Raise (MaseDB {| message := JStr ("HTTP 404: " +:+ default "" (text bare_error_404));
                     code := Some (JStr "NOT_FOUND");
                     details := Some (JObj []) |}) ∧
  AsyncMaseDBClient._handle_response bare_error_404 =
    Raise (MaseDB {| message := JStr ("HTTP 404: " +:+ default "" (text bare_error_404));
                     code := Some (JStr "NOT_FOUND");
                     details := Some (JObj []) |}).
Proof.
  apply (error_object_defaults bare_error_404
           [("error", JObj [("code", JStr "NOT_FOUND")])] [("code", JStr "NOT_FOUND")]).
  - simpl. lia.
  - reflexivity.
  - reflexivity.
  - reflexivity.
Defined.

(** X4: error bodies that are valid JSON of another shape are not turned into
    a [MaseDBError].  For a status from 400 to 599 and a JSON content type:
    a body that decodes to null, a bool or a number raises [TypeError]; so
    does an array that holds the string error and a string that contains it;
    an object whose [error] member is not an object raises
    [AttributeError].  Both handlers behave so. *)
Theorem malformed_error_body_escapes r v :
  (400 ≤ status_code r < 600)%Z →
  contains "application/json" (default "" (content_type r)) = true →
  json r = Decoded v →
  (is_scalar v = true →
   MaseDBClient._handle_response r = Raise TypeError ∧
   AsyncMaseDBClient._handle_response r = Raise TypeError) ∧
  (is_object v = false → py_in "error" v = Ok true →
   MaseDBClient._handle_response r = Raise TypeError ∧
   AsyncMaseDBClient._handle_response r = Raise TypeError) ∧
  (∀ fields x, v = JObj fields → dict_lookup "error" fields = Some x →
     is_object x = false →
   MaseDBClient._handle_response r = Raise AttributeError ∧
   AsyncMaseDBClient._handle_response r = Raise AttributeError).
Proof.
  intros Hst Hct Hj.
  rewrite <- handlers_agree by lia.
  rewrite blocking_handle_failure by (apply ok_blocking_false; exact Hst).
  cbv zeta. rewrite Hct, Hj.
  split; [|split].
  - intros Hs. destruct v; simpl in Hs; try discriminate; split; reflexivity.
  - intros Ho Hin. rewrite Hin. simpl.
    destruct v; simpl in Ho, Hin; try discriminate; split; reflexivity.
  - intros fields x -> Hx Ho. simpl. rewrite Hx. simpl.
    destruct x; simpl in Ho; try discriminate; split; reflexivity.
Qed.

(** A 500 whose body is the JSON literal null. *)
Lemma malformed_error_body_escapes_witness :
  MaseDBClient._handle_response null_500 = Raise TypeError ∧
  AsyncMaseDBClient._handle_response null_500 = Raise TypeError.
Proof.
  destruct (malformed_error_body_escapes null_500 JNull) as [H _].
  - simpl. lia.
  - reflexivity.
  - reflexivity.
  - apply H. reflexivity.
Defined.



(** ** The same response through the two libraries *)

(** X21: a blank body under a JSON content type parts the two clients.
    [json()] of requests is [json.loads] of the body and fails on a body
    that is empty or all whitespace; [json()] of aiohttp returns [None] for
    such a body.  So with a status from 400 to 599 the blocking client raises
    the generic HTTP error and the non-blocking client raises [TypeError],
    from the test [error in None]; and with a status below 400 and a body of
    whitespace the blocking client raises the [MaseDBError] of an invalid JSON
    response and the non-blocking client returns the null result. *)
Theorem blank_body_splits_the_clients accepts loads h msg :
  contains "application/json" (default "" (http_content_type h)) = true →
  accepts (lower (default "" (http_content_type h))) = true →
  strip (http_body h) = "" →
  loads (http_body h) = JSONDecodeError msg →
  ((400 ≤ http_status h < 600)%Z →
   MaseDBClient._handle_response (Requests.read loads h) =
     Raise (MaseDB (error_of_message
       ("HTTP " +:+ str_int (http_status h) +:+ ": " +:+
        body_or (Some (http_body h)) "No response body"))) ∧
   AsyncMaseDBClient._handle_response (Aiohttp.read accepts loads h) = Raise TypeError) ∧
  ((http_status h < 400)%Z → http_body h ≠ "" →
   MaseDBClient._handle_response (Requests.read loads h) =
     Raise (MaseDB (error_of_message ("Invalid JSON response: " +:+ msg))) ∧
   AsyncMaseDBClient._handle_response (Aiohttp.read accepts loads h) = Ok JNull).
Proof.
  intros Hct Hacc Hblank Hloads.
  assert (Hj : Aiohttp.json accepts loads h = Decoded JNull).
  { unfold Aiohttp.json. cbv zeta. rewrite Hacc, Hblank. reflexivity. }
  split.
  - intros Hst. split.
    + rewrite blocking_handle_failure by (apply ok_blocking_false; exact Hst).
      cbv zeta. simpl. rewrite Hct. unfold Requests.json. rewrite Hloads. reflexivity.
    + unfold AsyncMaseDBClient._handle_response.
      rewrite ok_async_false by (simpl; lia).
      cbv zeta. simpl. rewrite Hct, Hj. reflexivity.
  - intros Hst Hbody.
    assert (He : String.eqb (http_body h) "" = false).
    { apply String.eqb_neq. exact Hbody. }
    split.
    + rewrite blocking_handle_success by (apply ok_blocking_true; exact Hst).
      simpl. rewrite He, Hct. simpl. unfold Requests.json. rewrite Hloads. reflexivity.
    + rewrite async_handle_success by (apply ok_async_true; exact Hst).
      simpl. rewrite He, Hct, Hj. reflexivity.
Qed.

(** A 404 that announces JSON and has no body. *)
Lemma blank_body_splits_the_clients_witness :
  MaseDBClient._handle_response (Requests.read loads_sample http_404_no_body) =
    Raise (MaseDB (error_of_message "HTTP 404: No response body")) ∧
  AsyncMaseDBClient._handle_response
    (Aiohttp.read accepts_sample loads_sample http_404_no_body) = Raise TypeError.
Proof.
  destruct (blank_body_splits_the_clients accepts_sample loads_sample http_404_no_body
              "Expecting value: line 1 column 1 (char 0)") as [H _].
  - reflexivity.
  - reflexivity.
  - reflexivity.
  - reflexivity.
  - apply H. simpl. lia.
Defined.

(** When the content type contains application/json and aiohttp still does
    not take it for JSON, the [ContentTypeError] of [json()] is not a
    [ValueError]: it leaves the non-blocking handler as it is. *)
Lemma rejected_media_type_escapes accepts loads h :
  http_body h ≠ "" →
  contains "application/json" (default "" (http_content_type h)) = true →
  accepts (lower (default "" (http_content_type h))) = false →
  AsyncMaseDBClient._handle_response (Aiohttp.read accepts loads h) =
    Raise (ContentTypeError (lower (default "" (http_content_type h)))).
Proof.
  intros Hbody Hct Hacc.
  assert (He : String.eqb (http_body h) "" = false).
  { apply String.eqb_neq. exact Hbody. }
  assert (Hj : Aiohttp.json accepts loads h =
               UnexpectedMimetype (lower (default "" (http_content_type h)))).
  { unfold Aiohttp.json. cbv zeta. rewrite Hacc. reflexivity. }
  unfold AsyncMaseDBClient._handle_response.
  destruct (AsyncMaseDBClient.ok (Aiohttp.read accepts loads h)); cbv zeta; simpl;
    rewrite ?He, Hct, Hj; reflexivity.
Qed.

(** ** The requests of the methods *)

(** X6: each of the nineteen public methods, in either client, makes exactly
    one [session.request] call, and its request is the entry of the method in
    the catalog: that HTTP method, the stored base URL followed by that path,
    that body, and a headers dict with the API key, Accept, Content-Type on
    POST and PUT only, and nothing else. *)
Theorem every_method_is_one_catalog_request k b c env w :
  let req := expected_request k (rstrip "/" b) c in
  (calls (invoke_blocking (MaseDBClient.__init__ k b) c env w).2 = req :: calls w ∧
   calls (invoke_async (AsyncMaseDBClient.__init__ k b) c env w).2 = req :: calls w) ∧
  req_method req = (catalog c).1.1 ∧
  req_url req = rstrip "/" b +:+ (catalog c).1.2 ∧
  req_json req = (catalog c).2 ∧
  req_headers req !! "X-API-Key" = Some k ∧
  req_headers req !! "Accept" = Some "application/json" ∧
  req_headers req !! "Content-Type" =
    (if in_list (catalog c).1.1 ["POST"; "PUT"] then Some "application/json" else None) ∧
  (∀ name, name ≠ "X-API-Key" → name ≠ "Accept" → name ≠ "Content-Type" →
           req_headers req !! name = None).
Proof.
  intros req.
  destruct (invoke_blocking_issues k b c env w) as (n & _ & Hb).
  pose proof (invoke_async_issues k b c env w) as Ha.
  fold req in Hb, Ha. rewrite Hb, Ha.
  split; [split; reflexivity|].
  unfold req. rewrite <- built_is_expected. unfold built_request. simpl.
  split; [reflexivity|]. split; [reflexivity|]. split; [reflexivity|].
  split; [apply request_headers_api_key|].
  split; [apply request_headers_accept|].
  split; [apply request_headers_content_type|].
  intros name H1 H2 H3. unfold request_headers. simpl default.
  destruct (in_list (catalog c).1.1 ["POST"; "PUT"]);
    rewrite ?lookup_delete_ne, ?lookup_insert_ne by done; apply lookup_empty.
Qed.

(** X7: resource names are not reserved.  A document call on the collection
    named collections or transaction is, request and result, the call of the
    other endpoint: deleting the document [name] of collections is
    [delete_collection name], creating in it a document with a name and a
    description is [create_collection], and creating an empty document in
    transaction is [start_transaction]. *)
Theorem reserved_names_alias_other_endpoints
    (sc : MaseDBClient.t) (ac : AsyncMaseDBClient.t) name description env w :
  let described := JObj [("name", JStr name); ("description", JStr description)] in
  (invoke_blocking sc (DeleteDocument "collections" name) env w
     = invoke_blocking sc (DeleteCollection name) env w ∧
   invoke_blocking sc (CreateDocument "collections" described) env w
     = invoke_blocking sc (CreateCollection name description) env w ∧
   invoke_blocking sc (CreateDocument "transaction" (JObj [])) env w
     = invoke_blocking sc StartTransaction env w) ∧
  (invoke_async ac (DeleteDocument "collections" name) env w
     = invoke_async ac (DeleteCollection name) env w ∧
   invoke_async ac (CreateDocument "collections" described) env w
     = invoke_async ac (CreateCollection name description) env w ∧
   invoke_async ac (CreateDocument "transaction" (JObj [])) env w
     = invoke_async ac StartTransaction env w).
Proof. repeat split; reflexivity. Qed.

Lemma str_app_assoc (a b c : string) : (a +:+ b) +:+ c = a +:+ (b +:+ c).
Proof.
  induction a as [|x a IH]; [reflexivity|].
  change ((String x a +:+ b) +:+ c) with (String x ((a +:+ b) +:+ c)).
  change (String x a +:+ (b +:+ c)) with (String x (a +:+ (b +:+ c))).
  rewrite IH. reflexivity.
Qed.

Lemma catalog_slash_moves a b c :
  "/api/" +:+ (a +:+ "/" +:+ b) +:+ "/" +:+ c
  = "/api/" +:+ a +:+ "/" +:+ (b +:+ "/" +:+ c).
Proof.
  f_equal. rewrite str_app_assoc. reflexivity.
Qed.

(** X8: path segments are interpolated as they are.  A slash inside a
    collection name or a document id is a path separator like any other, so
    the collection [a/b] with the document [c] and the collection [a] with the
    document [b/c] are one and the same request and run, for
    [delete_document], [get_document] and [update_document] in both
    clients. *)
Theorem slash_in_a_name_moves_the_boundary
    (sc : MaseDBClient.t) (ac : AsyncMaseDBClient.t) a b c payload env w :
  (invoke_blocking sc (DeleteDocument (a +:+ "/" +:+ b) c) env w
     = invoke_blocking sc (DeleteDocument a (b +:+ "/" +:+ c)) env w ∧
   invoke_blocking sc (GetDocument (a +:+ "/" +:+ b) c payload) env w
     = invoke_blocking sc (GetDocument a (b +:+ "/" +:+ c) payload) env w ∧
   invoke_blocking sc (UpdateDocument (a +:+ "/" +:+ b) c payload) env w
     = invoke_blocking sc (UpdateDocument a (b +:+ "/" +:+ c) payload) env w) ∧
  (invoke_async ac (DeleteDocument (a +:+ "/" +:+ b) c) env w
     = invoke_async ac (DeleteDocument a (b +:+ "/" +:+ c)) env w ∧
   invoke_async ac (GetDocument (a +:+ "/" +:+ b) c payload) env w
     = invoke_async ac (GetDocument a (b +:+ "/" +:+ c) payload) env w ∧
   invoke_async ac (UpdateDocument (a +:+ "/" +:+ b) c payload) env w
     = invoke_async ac (UpdateDocument a (b +:+ "/" +:+ c) payload) env w).
Proof.
  pose proof (catalog_slash_moves a b c) as Hpath.
  repeat split; simpl;
    unfold MaseDBClient.delete_document, MaseDBClient.get_document,
           MaseDBClient.update_document, AsyncMaseDBClient.delete_document,
           AsyncMaseDBClient.get_document, AsyncMaseDBClient.update_document;
    rewrite Hpath; reflexivity.
Qed.

(** X9: [_request] touches three headers and no other.  Whatever headers the
    caller passes, a header under any other name reaches the session with the
    value the caller gave it, or stays absent; the names are compared as
    written, so a Content-Type spelled in lower case is such another name and
    survives on a GET. *)
Theorem caller_headers_pass_through
    (sc : MaseDBClient.t) (ac : AsyncMaseDBClient.t)
    method endpoint (given : gmap string string) body env w (name : string) :
  name ≠ "X-API-Key" → name ≠ "Accept" → name ≠ "Content-Type" →
  (∃ req, issues (MaseDBClient._request sc method endpoint
                    {| kw_headers := Some given; kw_json := body |} env w) w req ∧
          req_headers req !! name = given !! name) ∧
  (∃ req, issues (AsyncMaseDBClient._request ac method endpoint
                    {| kw_headers := Some given; kw_json := body |} env w) w req ∧
          req_headers req !! name = given !! name).
Proof.
  intros H1 H2 H3.
  assert (Hh : request_headers (MaseDBClient.api_key sc) method (Some given) !! name
               = given !! name ∧
               request_headers (AsyncMaseDBClient.api_key ac) method (Some given) !! name
               = given !! name).
  { unfold request_headers. simpl default.
    destruct (in_list method ["POST"; "PUT"]); split;
      rewrite ?lookup_delete_ne, ?lookup_insert_ne by done; reflexivity. }
  destruct Hh as [Hb Ha].
  split; eexists; split.
  - apply blocking_request_issues.
  - exact Hb.
  - apply async_request_issues.
  - exact Ha.
Qed.

Lemma caller_headers_pass_through_witness :
  let given : gmap string string := <["content-type" := "text/plain"]> ∅ in
  ∃ req, issues (MaseDBClient._request (MaseDBClient.__init__ "key" "https://db.example")
                   "GET" "/api/stats" {| kw_headers := Some given; kw_json := None |}
                   (always reply_200) fresh) fresh req ∧
         req_headers req !! "content-type" = given !! "content-type".
Proof.
  intros given.
  destruct (caller_headers_pass_through
              (MaseDBClient.__init__ "key" "https://db.example")
              (AsyncMaseDBClient.__init__ "key" "https://db.example")
              "GET" "/api/stats" given None (always reply_200) fresh "content-type")
    as [H _]; try discriminate.
  exact H.
Defined.

(** X10: a query that Python takes for false is sent as the empty object.
    [list_documents], [find_one] and [get_document] called with no query, with
    an empty dict or with any other falsy value run exactly as with the empty
    object, in both clients. *)
Theorem falsy_query_is_the_empty_object
    (sc : MaseDBClient.t) (ac : AsyncMaseDBClient.t) coll id q env w :
  truthy q = false →
  (invoke_blocking sc (ListDocuments coll q) env w
     = invoke_blocking sc (ListDocuments coll (JObj [])) env w ∧
   invoke_blocking sc (FindOne coll q) env w
     = invoke_blocking sc (FindOne coll (JObj [])) env w ∧
   invoke_blocking sc (GetDocument coll id q) env w
     = invoke_blocking sc (GetDocument coll id (JObj [])) env w) ∧
  (invoke_async ac (ListDocuments coll q) env w
     = invoke_async ac (ListDocuments coll (JObj [])) env w ∧
   invoke_async ac (FindOne coll q) env w
     = invoke_async ac (FindOne coll (JObj [])) env w ∧
   invoke_async ac (GetDocument coll id q) env w
     = invoke_async ac (GetDocument coll id (JObj [])) env w).
Proof.
  intros Hq.
  assert (Hor : or_ q (JObj []) = or_ (JObj []) (JObj [])).
  { unfold or_. rewrite Hq. reflexivity. }
  repeat split; simpl;
    unfold MaseDBClient.find_one, AsyncMaseDBClient.find_one,
           MaseDBClient.list_documents, AsyncMaseDBClient.list_documents,
           MaseDBClient.get_document, AsyncMaseDBClient.get_document;
    rewrite Hor; reflexivity.
Qed.

(** Leaving the query out is the same as passing an empty dict. *)
Lemma falsy_query_is_the_empty_object_witness :
  invoke_blocking (MaseDBClient.__init__ "key" "https://db.example")
    (ListDocuments "users" JNull) (always reply_list) fresh
  = invoke_blocking (MaseDBClient.__init__ "key" "https://db.example")
      (ListDocuments "users" (JObj [])) (always reply_list) fresh.
Proof.
  destruct (falsy_query_is_the_empty_object
              (MaseDBClient.__init__ "key" "https://db.example")
              (AsyncMaseDBClient.__init__ "key" "https://db.example")
              "users" "1" JNull (always reply_list) fresh) as [[H _] _].
  - reflexivity.
  - exact H.
Defined.

(** ** The stored base URL *)

Lemma rstrip_decompose s :
  ∃ n, s = rstrip "/" s +:+ str_repeat "/" n.
Proof.
  induction s as [|c s [n IH]].
  - exists 0%nat. reflexivity.
  - simpl. destruct (rstrip "/" s) as [|a r] eqn:Hr.
    + unfold in_chars. simpl.
      destruct (Ascii.eqb_spec c "/") as [->|Hc]; simpl.
      * exists (S n). rewrite IH at 1. reflexivity.
      * exists n. rewrite IH at 1. reflexivity.
    + exists n. rewrite IH at 1. reflexivity.
Qed.

Lemma rstrip_fixed s :
  endswith_char s "/" = false → rstrip "/" s = s.
Proof.
  induction s as [|c s IH]; [reflexivity|].
  intros H. simpl.
  destruct s as [|a s'].
  - simpl in *. unfold in_chars. simpl. rewrite H. reflexivity.
  - rewrite IH by exact H. reflexivity.
Qed.

(** X11: construction removes trailing slashes from the base URL and nothing
    else: the argument is the stored base URL followed by some number of
    slashes, a base URL that does not end with a slash is stored as it is, and
    constructing a client from the stored base URL of another gives the same
    client.  Both clients. *)
Theorem base_url_loses_only_trailing_slashes k base_url :
  (∃ n, base_url = MaseDBClient.BASE_URL (MaseDBClient.__init__ k base_url)
                   +:+ str_repeat "/" n) ∧
  (∃ n, base_url = AsyncMaseDBClient.BASE_URL (AsyncMaseDBClient.__init__ k base_url)
                   +:+ str_repeat "/" n) ∧
  (endswith_char base_url "/" = false →
   MaseDBClient.BASE_URL (MaseDBClient.__init__ k base_url) = base_url ∧
   AsyncMaseDBClient.BASE_URL (AsyncMaseDBClient.__init__ k base_url) = base_url) ∧
  MaseDBClient.__init__ k (MaseDBClient.BASE_URL (MaseDBClient.__init__ k base_url))
    = MaseDBClient.__init__ k base_url ∧
  AsyncMaseDBClient.__init__ k
      (AsyncMaseDBClient.BASE_URL (AsyncMaseDBClient.__init__ k base_url))
    = AsyncMaseDBClient.__init__ k base_url.
Proof.
  assert (Hidem : rstrip "/" (rstrip "/" base_url) = rstrip "/" base_url).
  { apply rstrip_fixed, rstrip_not_endswith. }
  split; [apply rstrip_decompose|].
  split; [apply rstrip_decompose|].
  split.
  - intros H. simpl. rewrite rstrip_fixed by exact H. split; reflexivity.
  - unfold MaseDBClient.__init__, AsyncMaseDBClient.__init__. simpl.
    rewrite Hidem. split; reflexivity.
Qed.

Lemma base_url_loses_only_trailing_slashes_witness :
  MaseDBClient.BASE_URL (MaseDBClient.__init__ "key" "https://db.example/v1")
    = "https://db.example/v1" ∧
  AsyncMaseDBClient.BASE_URL (AsyncMaseDBClient.__init__ "key" "https://db.example/v1")
    = "https://db.example/v1".
Proof.
  destruct (base_url_loses_only_trailing_slashes "key" "https://db.example/v1")
    as (_ & _ & H & _).
  apply H. reflexivity.
Defined.

(** ** What [find_one] makes of other results *)

Lemma blocking_find_one_result sc coll q env w :
  (MaseDBClient.find_one sc coll q env w).1
  = (MaseDBClient.list_documents sc coll q env w).1 ≫= first_or_null.
Proof.
  pose proof (invoke_blocking_run sc (FindOne coll q) env w) as H.
  simpl in H. rewrite H. reflexivity.
Qed.

Lemma async_find_one_result ac coll q env w :
  (AsyncMaseDBClient.find_one ac coll q env w).1
  = (AsyncMaseDBClient.list_documents ac coll q env w).1 ≫= first_or_null.
Proof.
  pose proof (invoke_async_run ac (FindOne coll q) env w) as H.
  simpl in H. rewrite H. reflexivity.
Qed.

Lemma first_or_null_cases (outcome : Result Json) :
  (∀ e, outcome = Raise e → outcome ≫= first_or_null = Raise e) ∧
  (∀ v, outcome = Ok v → truthy v = false → outcome ≫= first_or_null = Ok JNull) ∧
  (∀ f fs, outcome = Ok (JObj (f :: fs)) → outcome ≫= first_or_null = Raise KeyError) ∧
  (∀ v, outcome = Ok v → truthy v = true → is_scalar v = true →
        outcome ≫= first_or_null = Raise TypeError) ∧
  (∀ c s, outcome = Ok (JStr (String c s)) →
          outcome ≫= first_or_null = Ok (JStr (String c EmptyString))).
Proof.
  repeat split.
  - intros e ->. reflexivity.
  - intros v -> Hv. simpl. unfold first_or_null. rewrite Hv. reflexivity.
  - intros f fs ->. reflexivity.
  - intros v -> Hv Hs. simpl. unfold first_or_null. rewrite Hv.
    destruct v; simpl in Hs; try discriminate; reflexivity.
  - intros c s ->. reflexivity.
Qed.

(** X12: [find_one] beyond lists, in both clients.  An error of
    [list_documents] is raised unchanged.  Any falsy result (an empty list, an
    empty object, an empty string, zero, false, the null of an empty body)
    gives the null result.  A result that is an object with members raises
    [KeyError], a true bool or a number other than zero raises [TypeError],
    and a string gives its first character. *)
Theorem find_one_on_other_results
    (sc : MaseDBClient.t) (ac : AsyncMaseDBClient.t) coll q env w :
  ((∀ e, (MaseDBClient.list_documents sc coll q env w).1 = Raise e →
         (MaseDBClient.find_one sc coll q env w).1 = Raise e) ∧
   (∀ v, (MaseDBClient.list_documents sc coll q env w).1 = Ok v → truthy v = false →
         (MaseDBClient.find_one sc coll q env w).1 = Ok JNull) ∧
   (∀ f fs, (MaseDBClient.list_documents sc coll q env w).1 = Ok (JObj (f :: fs)) →
            (MaseDBClient.find_one sc coll q env w).1 = Raise KeyError) ∧
   (∀ v, (MaseDBClient.list_documents sc coll q env w).1 = Ok v →
         truthy v = true → is_scalar v = true →
         (MaseDBClient.find_one sc coll q env w).1 = Raise TypeError) ∧
   (∀ c s, (MaseDBClient.list_documents sc coll q env w).1 = Ok (JStr (String c s)) →
           (MaseDBClient.find_one sc coll q env w).1 = Ok (JStr (String c EmptyString)))) ∧
  ((∀ e, (AsyncMaseDBClient.list_documents ac coll q env w).1 = Raise e →
         (AsyncMaseDBClient.find_one ac coll q env w).1 = Raise e) ∧
   (∀ v, (AsyncMaseDBClient.list_documents ac coll q env w).1 = Ok v → truthy v = false →
         (AsyncMaseDBClient.find_one ac coll q env w).1 = Ok JNull) ∧
   (∀ f fs, (AsyncMaseDBClient.list_documents ac coll q env w).1 = Ok (JObj (f :: fs)) →
            (AsyncMaseDBClient.find_one ac coll q env w).1 = Raise KeyError) ∧
   (∀ v, (AsyncMaseDBClient.list_documents ac coll q env w).1 = Ok v →
         truthy v = true → is_scalar v = true →
         (AsyncMaseDBClient.find_one ac coll q env w).1 = Raise TypeError) ∧
   (∀ c s, (AsyncMaseDBClient.list_documents ac coll q env w).1 = Ok (JStr (String c s)) →
           (AsyncMaseDBClient.find_one ac coll q env w).1 = Ok (JStr (String c EmptyString)))).
Proof.
  split.
  - rewrite blocking_find_one_result. apply first_or_null_cases.
  - rewrite async_find_one_result. apply first_or_null_cases.
Qed.

(** Against a server whose answer is the object of the create-collection
    scenario, [find_one] raises [KeyError]. *)
Lemma find_one_on_other_results_witness :
  (MaseDBClient.find_one (MaseDBClient.__init__ "key" "https://db.example")
     "users" JNull (always reply_200) fresh).1 = Raise KeyError.
Proof.
  destruct (find_one_on_other_results
              (MaseDBClient.__init__ "key" "https://db.example")
              (AsyncMaseDBClient.__init__ "key" "https://db.example")
              "users" JNull (always reply_200) fresh) as [(_ & _ & H & _) _].
  apply (H ("message", JStr "Collection created successfully") []).
  vm_compute. reflexivity.
Defined.

(** ** Failures and retries of the blocking session *)

(** X13: no public method of the blocking client lets a transport exception
    out.  Whatever the server does and whatever the retry policy of the
    session, an exception raised by a method is never one of the HTTP
    library. *)
Theorem blocking_methods_raise_no_transport_exception
    (sc : MaseDBClient.t) c env w e :
  (invoke_blocking sc c env w).1 = Raise e →
  (∀ t, e ≠ RequestException t) ∧ (∀ t, e ≠ ClientError t).
Proof.
  rewrite invoke_blocking_run. simpl fst.
  pose proof (blocking_request_wraps_transport sc (catalog c).1.1 (catalog c).1.2
                {| kw_headers := None; kw_json := (catalog c).2 |} env w) as Hreq.
  destruct (MaseDBClient._request sc (catalog c).1.1 (catalog c).1.2
              {| kw_headers := None; kw_json := (catalog c).2 |} env w).1 as [v|e'] eqn:Hrun.
  - destruct c; simpl; try discriminate.
    unfold first_or_null, getitem_0. intros H.
    repeat case_match; simplify_eq; split; intros; discriminate.
  - assert (Hfin : finish c (Raise e') = Raise e') by (destruct c; reflexivity).
    rewrite Hfin. intros H. simplify_eq. apply Hreq. reflexivity.
Qed.

Lemma blocking_methods_raise_no_transport_exception_witness :
  (∀ t, MaseDB (error_of_message "Request failed: Connection refused") ≠ RequestException t) ∧
  (∀ t, MaseDB (error_of_message "Request failed: Connection refused") ≠ ClientError t).
Proof.
  apply (blocking_methods_raise_no_transport_exception
           (MaseDBClient.__init__ "key" "https://db.example") ListCollections refusing fresh).
  vm_compute. reflexivity.
Defined.

Lemma urlopen_refused total forcelist req env w d :
  (∀ h, server env h = ConnectFailure d) →
  Retry.urlopen total forcelist req env w =
    (Raise (RequestException (ConnectError d)),
     {| wire := replicate (S total) req ++ wire w; calls := calls w |}).
Proof.
  intros Hs. revert w.
  induction total as [|total IH]; intros w; simpl; unfold transmit; simpl; rewrite Hs.
  - reflexivity.
  - rewrite IH. simpl. do 2 f_equal.
    apply (replicate_cons_app req (S total) (wire w)).
Qed.

Lemma urlopen_forced total forcelist req env w r :
  (∀ h, server env h = Reply r) →
  Retry.is_method_retryable (req_method req) = true →
  Retry.in_codes (status_code r) forcelist = true →
  Retry.urlopen total forcelist req env w =
    (Raise (RequestException (RetryError (status_code r))),
     {| wire := replicate (S total) req ++ wire w; calls := calls w |}).
Proof.
  intros Hs Hm Hc. revert w.
  assert (Hretry : ∀ n, Retry.is_retry n forcelist (req_method req) r = true).
  { intros n. unfold Retry.is_retry. rewrite Hm, Hc. reflexivity. }
  induction total as [|total IH]; intros w; simpl; unfold transmit; simpl;
    rewrite Hs, Hretry.
  - reflexivity.
  - rewrite IH. simpl. do 2 f_equal.
    apply (replicate_cons_app req (S total) (wire w)).
Qed.

Lemma blocking_request_gives_up self method endpoint kwargs env w t w' :
  let req := built_request (MaseDBClient.api_key self) (MaseDBClient.BASE_URL self)
               method endpoint kwargs in
  Retry.urlopen (Retry.total (MaseDBClient.max_retries (MaseDBClient.session self)))
    (Retry.status_forcelist (MaseDBClient.max_retries (MaseDBClient.session self)))
    req env {| wire := wire w; calls := req :: calls w |}
    = (Raise (RequestException t), w') →
  MaseDBClient._request self method endpoint kwargs env w =
    (Raise (MaseDB (error_of_message ("Request failed: " +:+ exn_str env t))), w').
Proof.
  intros req Hrun.
  apply blocking_session_failure_wrapped.
  unfold MaseDBClient.session_request. rewrite M_bind_unfold. unfold log_call.
  fold req. exact Hrun.
Qed.

Lemma finish_raise c e : finish c (Raise e) = Raise e.
Proof. destruct c; reflexivity. Qed.

(** X14: a server that cannot be reached.  When every transmission fails to
    connect, every method of the blocking client sends its request four times
    (the first attempt and the three retries of the session) and then raises
    the [MaseDBError] whose message is [Request failed:] followed by the text
    of the library's exception; every method of the non-blocking client sends
    it once and raises the exception of the library itself. *)
Theorem unreachable_server k b c env w d :
  (∀ h, server env h = ConnectFailure d) →
  let req := expected_request k (rstrip "/" b) c in
  invoke_blocking (MaseDBClient.__init__ k b) c env w =
    (Raise (MaseDB (error_of_message
       ("Request failed: " +:+ exn_str env (ConnectError d)))), sent req 4 w) ∧
  invoke_async (AsyncMaseDBClient.__init__ k b) c env w =
    (Raise (ClientError (ConnectError d)), sent req 1 w).
Proof.
  intros Hs req. split.
  - rewrite invoke_blocking_run.
    rewrite (blocking_request_gives_up (MaseDBClient.__init__ k b) _ _ _ env w
               (ConnectError d)
               (sent req 4 w)).
    + simpl. rewrite finish_raise. reflexivity.
    + cbv zeta. rewrite (urlopen_refused _ _ _ env _ d Hs).
      rewrite built_is_expected. reflexivity.
  - rewrite invoke_async_run, async_request_run. simpl.
    rewrite Hs, finish_raise, built_is_expected. reflexivity.
Qed.

Lemma unreachable_server_witness :
  invoke_async (AsyncMaseDBClient.__init__ "key" "https://db.example")
    GetStats refusing fresh =
    (Raise (ClientError (ConnectError "Connection refused")),
     sent (expected_request "key" "https://db.example" GetStats) 1 fresh).
Proof.
  destruct (unreachable_server "key" "https://db.example" GetStats refusing fresh
              "Connection refused") as [_ H].
  - intros h. simpl. destruct (length h - 1)%nat; reflexivity.
  - exact H.
Defined.

(** X15: a server that keeps answering 500, 502, 503 or 504.  For a method
    whose HTTP verb is idempotent (GET, PUT, DELETE) the blocking client sends
    the request four times and then raises the [MaseDBError] of a failed
    request: the body of the server's answer, and any error object in it, does
    not reach the caller.  The non-blocking client hands the first answer to
    its response handler. *)
Theorem persistent_server_error k b c env w r :
  (∀ h, server env h = Reply r) →
  Retry.in_codes (status_code r) [500; 502; 503; 504]%Z = true →
  Retry.is_method_retryable (catalog c).1.1 = true →
  let req := expected_request k (rstrip "/" b) c in
  invoke_blocking (MaseDBClient.__init__ k b) c env w =
    (Raise (MaseDB (error_of_message
       ("Request failed: " +:+ exn_str env (RetryError (status_code r))))),
     sent req 4 w) ∧
  invoke_async (AsyncMaseDBClient.__init__ k b) c env w =
    (finish c (AsyncMaseDBClient._handle_response r), sent req 1 w).
Proof.
  intros Hs Hc Hm req. split.
  - rewrite invoke_blocking_run.
    rewrite (blocking_request_gives_up (MaseDBClient.__init__ k b) _ _ _ env w
               (RetryError (status_code r)) (sent req 4 w)).
    + simpl. rewrite finish_raise. reflexivity.
    + cbv zeta. rewrite (urlopen_forced _ _ _ env _ r); [|exact Hs|exact Hm|exact Hc].
      rewrite built_is_expected. reflexivity.
  - rewrite invoke_async_run, async_request_run. simpl.
    rewrite Hs, built_is_expected. reflexivity.
Qed.

Lemma persistent_server_error_witness :
  (invoke_blocking (MaseDBClient.__init__ "key" "https://db.example")
     (GetDocument "users" "1" JNull) (always (error_reply 503)) fresh).1 =
    Raise (MaseDB (error_of_message "Request failed: too many 503 error responses")).
Proof.
  destruct (persistent_server_error "key" "https://db.example"
              (GetDocument "users" "1" JNull) (always (error_reply 503)) fresh
              (error_reply 503)) as [H _].
  - intros h. simpl. destruct (length h - 1)%nat; reflexivity.
  - reflexivity.
  - reflexivity.
  - rewrite H. reflexivity.
Defined.

(** ** The session of the non-blocking client *)

Import AsyncSession.

Lemma close_fresh s l :
  Forall (λ x, x < s) l → filter (λ x, x ≠ s) l = l.
Proof.
  induction 1 as [|x l Hx _ IH]; [reflexivity|].
  rewrite filter_cons_True by lia. rewrite IH. reflexivity.
Qed.

Lemma run_calls_in_session n rest st s :
  _session st = Some s →
  run (replicate n Call ++ rest) st = ((replicate n s ++ (run rest st).1), (run rest st).2).
Proof.
  intros Hs. induction n as [|n IH]; simpl.
  - destruct (run rest st); reflexivity.
  - unfold session at 1. rewrite Hs. rewrite IH. reflexivity.
Qed.

(** X17: the [async with] bracket.  Entered on a client that holds no
    session, it creates one session; every call inside goes through that
    session and creates no other; and leaving closes it: afterwards the client
    holds no session and no session is left open that was not open before. *)
Theorem bracket_closes_its_session st n :
  consistent st →
  _session st = None →
  run (Enter :: replicate n Call ++ [Exit]) st =
    (replicate n (created st),
     {| _session := None; created := S (created st); unclosed := unclosed st |}).
Proof.
  intros [Hlt _] Hnone.
  change (run (Enter :: replicate n Call ++ [Exit]) st)
    with (run (replicate n Call ++ [Exit]) (__aenter__ st)).
  rewrite (run_calls_in_session n [Exit] (__aenter__ st) (created st)) by reflexivity.
  simpl. rewrite app_nil_r. f_equal.
  unfold __aexit__, __aenter__, set_session, close. simpl.
  rewrite filter_cons_False by (intros H; apply H; reflexivity).
  rewrite close_fresh by exact Hlt. reflexivity.
Qed.

Lemma bracket_closes_its_session_witness :
  run [Enter; Call; Call; Exit] initial =
    ([0; 0], {| _session := None; created := 1; unclosed := [] |}).
Proof.
  apply (bracket_closes_its_session initial 2).
  - split; [constructor|]. intros s H. discriminate.
  - reflexivity.
Defined.

(** X18: calls outside the bracket.  On a client that holds no session the
    first call creates one, all later calls go through the same one, and
    nothing closes it: after any number of calls it is still open and still
    held by the client. *)
Theorem calls_without_bracket_leave_a_session_open st n :
  _session st = None →
  run (replicate (S n) Call) st =
    (replicate (S n) (created st),
     {| _session := Some (created st);
        created := S (created st);
        unclosed := created st :: unclosed st |}).
Proof.
  intros Hnone.
  change (replicate (S n) Call) with (Call :: replicate n Call).
  simpl. unfold session at 1. rewrite Hnone. simpl.
  pose proof (run_calls_in_session n []
                (set_session (Some (created st)) (ClientSession st).2)
                (created st) eq_refl) as H.
  rewrite app_nil_r in H. simpl in H. rewrite app_nil_r in H.
  unfold set_session in *. simpl in *. rewrite H. reflexivity.
Qed.

Lemma calls_without_bracket_leave_a_session_open_witness :
  run [Call; Call; Call] initial =
    ([0; 0; 0], {| _session := Some 0; created := 1; unclosed := [0] |}).
Proof.
  apply (calls_without_bracket_leave_a_session_open initial 2).
  reflexivity.
Defined.

Lemma step_keeps_orphan s step st :
  consistent st → s ∈ unclosed st → _session st ≠ Some s →
  let st' := (run [step] st).2 in
  consistent st' ∧ s ∈ unclosed st' ∧ _session st' ≠ Some s.
Proof.
  intros [Hlt Hcur] Hin Hne.
  assert (Hs : s < created st).
  { rewrite Forall_forall in Hlt. apply Hlt. exact Hin. }
  assert (Hnew : consistent (set_session (Some (created st)) (ClientSession st).2) ∧
                 s ∈ unclosed (set_session (Some (created st)) (ClientSession st).2) ∧
                 _session (set_session (Some (created st)) (ClientSession st).2) ≠ Some s).
  { unfold consistent, set_session, ClientSession. simpl. split; [split|split].
    - constructor; [lia|]. eapply Forall_impl; [exact Hlt|]. simpl. intros; lia.
    - intros x Hx. simplify_eq. lia.
    - apply elem_of_cons. right. exact Hin.
    - intros H. simplify_eq. lia. }
  destruct step; simpl.
  - exact Hnew.
  - unfold __aexit__. destruct (_session st) as [cur|] eqn:Hc.
    + unfold consistent, set_session, close. simpl. split; [split|split].
      * apply Forall_forall. intros x Hx.
        apply list_elem_of_filter in Hx as [_ Hx].
        rewrite Forall_forall in Hlt. apply Hlt. exact Hx.
      * intros x Hx. discriminate.
      * apply list_elem_of_filter. split; [|exact Hin]. congruence.
      * discriminate.
    + unfold consistent. rewrite Hc. split; [split|split]; assumption.
  - unfold session. destruct (_session st) as [cur|] eqn:Hc; simpl.
    + unfold consistent. rewrite Hc. split; [split|split]; assumption.
    + exact Hnew.
Qed.

Lemma run_cons_state step steps st :
  (run (step :: steps) st).2 = (run steps (run [step] st).2).2.
Proof.
  destruct step; simpl; try reflexivity.
  destruct (session st) as [s st']. simpl.
  destruct (run steps st'). reflexivity.
Qed.

Lemma orphan_stays_open s steps st :
  consistent st → s ∈ unclosed st → _session st ≠ Some s →
  s ∈ unclosed (run steps st).2.
Proof.
  revert st. induction steps as [|step steps IH]; intros st Hc Hin Hne.
  - exact Hin.
  - rewrite run_cons_state.
    destruct (step_keeps_orphan s step st Hc Hin Hne) as (Hc' & Hin' & Hne').
    apply IH; assumption.
Qed.

(** X19: entering the bracket on a client that already holds a session, made
    by an earlier call, replaces that session without closing it.  From then
    on the client has no reference to it: whatever the caller does afterwards
    (calls, entering, leaving, in any order) it is never closed. *)
Theorem entering_orphans_the_earlier_session st s steps :
  consistent st →
  _session st = Some s →
  s ∈ unclosed st →
  _session (__aenter__ st) = Some (created st) ∧
  s ∈ unclosed (run steps (__aenter__ st)).2.
Proof.
  intros Hc Hs Hin. split; [reflexivity|].
  assert (Hlt : s < created st).
  { destruct Hc as [_ Hcur]. apply Hcur. exact Hs. }
  apply orphan_stays_open.
  - destruct Hc as [Hall _]. unfold consistent, __aenter__, set_session. simpl. split.
    + constructor; [lia|]. eapply Forall_impl; [exact Hall|]. simpl. intros; lia.
    + intros x Hx. simplify_eq. lia.
  - unfold __aenter__, set_session. simpl. apply elem_of_cons. right. exact Hin.
  - unfold __aenter__, set_session. simpl. intros H. simplify_eq. lia.
Qed.

(** A call, then the bracket: the session of the call is still open after the
    bracket has been left. *)
Lemma entering_orphans_the_earlier_session_witness :
  0 ∈ unclosed (run [Call; Exit] (__aenter__ (run [Call] initial).2)).2.
Proof.
  apply (entering_orphans_the_earlier_session (run [Call] initial).2 0 [Call; Exit]).
  - split.
    + repeat constructor.
    + intros x Hx. simpl in Hx. simplify_eq. simpl. lia.
  - reflexivity.
  - simpl. apply elem_of_cons. left. reflexivity.
Defined.
